(** * aux: a read-only HTTP proxy over S3 and SSM (main.go)

    A shallow embedding of [main.go].  The Go program authenticates once at
    start-up and then answers four GET routes, three of which forward one call
    to AWS and wrap the answer in a [{version, data}] envelope.

    What is modelled from the source: the [Config], [response] and
    [awsClients] structs, [newAWSClients], the four handlers and [main].

    What is modelled from the libraries the source calls (their code is not
    part of the repository): a fragment of gin (context, response writer,
    route table, the Recovery middleware of [gin.Default]), of encoding/json
    (marshalling of the values the handlers store in [Data]), of envconfig
    (the [required] tag) and of the AWS SDK (each operation returns either an
    output or an error).  The outside world (process environment, what AWS
    answers, whether the port can be bound, which requests arrive) is a record
    of oracles, [World]; everything observable the process does is appended to
    a trace of [Event]s. *)

From Stdlib Require Import ZArith Lia.
From stdpp Require Import base gmap strings list fin_maps.

(* ===================================================================== *)
(** ** Go values *)
(* ===================================================================== *)

(** A Go [error], represented by the text [err.Error()] returns. *)
Definition error := string.

(** A Go slice [[]A]: the nil slice is distinct from a non-nil slice,
    also from a non-nil slice of length zero. *)
Inductive slice (A : Type) : Type :=
| nil_slice
| mk_slice (elems : list A).
Arguments nil_slice {A}.
Arguments mk_slice {A} elems.

Definition elems_of {A} (s : slice A) : list A :=
  match s with
  | nil_slice => []
  | mk_slice l => l
  end.

(** The builtin [append(s, x)]: the result is never nil. *)
Definition append {A} (s : slice A) (x : A) : slice A :=
  mk_slice (elems_of s ++ [x]).

(** The dynamic types the program stores in a field of type [any]. *)
Inductive any : Type :=
| any_string (s : string)
| any_strings (s : slice string).

(** The message of the run-time panic raised by [*p] when [p] is nil. *)
Definition nil_dereference : string :=
  "runtime error: invalid memory address or nil pointer dereference".

(* ===================================================================== *)
(** ** net/http status codes *)
(* ===================================================================== *)

Definition StatusOK : Z := 200.
Definition StatusNotFound : Z := 404.
Definition StatusInternalServerError : Z := 500.

(* ===================================================================== *)
(** ** The structs of main.go *)
(* ===================================================================== *)

Record Config := { VERSION : string }.

Record response := { Version : string; Data : any }.

(* ===================================================================== *)
(** ** encoding/json, for the values the handlers marshal *)
(* ===================================================================== *)

#[local] Set Warnings "-register-all".

Inductive json : Type :=
| JNull
| JString (s : string)
| JArray (items : list json)
| JObject (fields : list (string * json)).

(** A nil slice encodes as [null], any other slice as an array. *)
Definition marshal_any (d : any) : json :=
  match d with
  | any_string s => JString s
  | any_strings nil_slice => JNull
  | any_strings (mk_slice l) => JArray (map JString l)
  end.

(** Struct fields are emitted in declaration order under their [json] tags. *)
Definition json_Marshal (r : response) : json :=
  JObject [("version", JString (Version r)); ("data", marshal_any (Data r))].

(** The text of a JSON value.  How a string literal is quoted and escaped is
    left to [quote]. *)
Section Text.
Variable quote : string -> string.

Fixpoint json_text (j : json) : string :=
  match j with
  | JNull => "null"
  | JString s => quote s
  | JArray items =>
      "[" +:+
      (fix go (l : list json) : string :=
         match l with
         | [] => ""
         | x :: r =>
             json_text x +:+
             match r with [] => "" | _ :: _ => "," +:+ go r end
         end) items
      +:+ "]"
  | JObject fields =>
      "{" +:+
      (fix go (l : list (string * json)) : string :=
         match l with
         | [] => ""
         | (k, v) :: r =>
             quote k +:+ ":" +:+ json_text v +:+
             match r with [] => "" | _ :: _ => "," +:+ go r end
         end) fields
      +:+ "}"
  end.
End Text.

(* ===================================================================== *)
(** ** AWS SDK types *)
(* ===================================================================== *)

(** [aws.Config], what [config.LoadDefaultConfig] resolves. *)
Record aws_Config := { Region : string; Credentials : string }.

(** s3/types: [Bucket.Name] is a [*string]. *)
Module s3types.
Record Bucket := { Name : option string }.
End s3types.

(** ssm/types: [ParameterMetadata.Name] and [Parameter.Value] are [*string].
    ([Parameter] and [Parameters] are reserved words here, hence the
    underscore.) *)
Module ssmtypes.
Record ParameterMetadata := { Name : option string }.
Record Parameter_ := { Value : option string }.
End ssmtypes.

Record ListBucketsInput := { }.
Record ListBucketsOutput := { Buckets : list s3types.Bucket }.

Record DescribeParametersInput := { }.
Record DescribeParametersOutput :=
  { Parameters_ : list ssmtypes.ParameterMetadata }.

(** [GetParameterOutput.Parameter] is a [*types.Parameter]. *)
Record GetParameterInput := { Name : option string }.
Record GetParameterOutput := { Parameter_ : option ssmtypes.Parameter_ }.

Record GetCallerIdentityInput := { }.

(** A service client keeps the configuration it was made from. *)
Record s3_Client := { s3_options : aws_Config }.
Record ssm_Client := { ssm_options : aws_Config }.
Record sts_Client := { sts_options : aws_Config }.

Definition s3_NewFromConfig (cfg : aws_Config) : s3_Client :=
  {| s3_options := cfg |}.
Definition ssm_NewFromConfig (cfg : aws_Config) : ssm_Client :=
  {| ssm_options := cfg |}.
Definition sts_NewFromConfig (cfg : aws_Config) : sts_Client :=
  {| sts_options := cfg |}.

Record awsClients := { s3 : s3_Client; ssm : ssm_Client }.

(* ===================================================================== *)
(** ** gin: parameters, response writer, context *)
(* ===================================================================== *)

Record Param := { Key : string; Value : string }.

(** [Params.ByName]: the value of the first entry with that key, or the
    empty string. *)
Fixpoint ByName (ps : list Param) (name : string) : string :=
  match ps with
  | [] => ""
  | p :: ps' => if decide (Key p = name) then Value p else ByName ps' name
  end.

(** What has been written to the response body. *)
Inductive body_part : Type :=
| JSONBody (j : json)
| PlainBody (s : string).

Record responseWriter := {
  status : Z;
  written : bool;
  header : list (string * string);
  body : list body_part
}.

(** An incoming request after routing: the method, the route pattern it
    matched ([c.FullPath()]) and the path parameters the router extracted. *)
Record Request := {
  Method : string;
  FullPath : string;
  PathParams : list Param
}.

Definition context_Context : Type := unit.
Definition context_Background : context_Context := tt.

Definition Request_Context (r : Request) : context_Context := tt.

Record Context := {
  Request_ : Request;
  Params : list Param;
  Writer : responseWriter
}.

(** The engine hands every request a reset context: status 200, nothing
    written. *)
Definition newContext (req : Request) : Context :=
  {| Request_ := req;
     Params := PathParams req;
     Writer := {| status := 200; written := false; header := []; body := [] |} |}.

(* ===================================================================== *)
(** ** The outside world and the trace *)
(* ===================================================================== *)

(** An operation of the AWS SDK the program invokes.  One [EvCall] on the
    trace is one invocation by the program; how many HTTP requests the SDK
    client sends for it (its retryer may re-send) is not shown. *)
Inductive Call : Type :=
| CallGetCallerIdentity
| CallListBuckets
| CallDescribeParameters
| CallGetParameter (input : GetParameterInput).

Inductive Event : Type :=
| EvLookupEnv (key : string)
| EvLoadDefaultConfig
| EvCall (c : Call)
| EvLog (msg : string)
| EvListen (addr : string)
| EvRequest (req : Request)
| EvResponse (req : Request) (code : Z) (b : list body_part).

(** The oracles.  An AWS answer may depend on the configuration of the
    client that asks and on everything that happened before the call. *)
Record World := {
  environ : gmap string string;
  LoadDefaultConfig_result : aws_Config + error;
  GetCallerIdentity_reply : aws_Config -> option error;
  ListBuckets_reply :
    aws_Config -> list Event -> ListBucketsOutput + error;
  DescribeParameters_reply :
    aws_Config -> list Event -> DescribeParametersOutput + error;
  GetParameter_reply :
    aws_Config -> list Event -> GetParameterInput -> GetParameterOutput + error;
  Listen_result : string -> option error;
  incoming : list Request
}.

(* ===================================================================== *)
(** ** The monad: reader of the world, writer of the trace, control *)
(* ===================================================================== *)

Inductive Result (A : Type) : Type :=
| Ok (a : A)
| Panic (msg : string)
| Exit (code : Z)
| Blocked.
Arguments Ok {A} a.
Arguments Panic {A} msg.
Arguments Exit {A} code.
Arguments Blocked {A}.

Definition M (A : Type) : Type := World -> list Event -> Result A * list Event.

Definition ret {A} (a : A) : M A := fun _ tr => (Ok a, tr).

Definition bind {A B} (m : M A) (k : A -> M B) : M B :=
  fun w tr =>
    match m w tr with
    | (Ok a, tr') => k a w tr'
    | (Panic msg, tr') => (Panic msg, tr')
    | (Exit code, tr') => (Exit code, tr')
    | (Blocked, tr') => (Blocked, tr')
    end.

Notation "x <- m ; k" := (bind m (fun x => k))
  (at level 20, m at level 100, k at level 200, only parsing).

Definition emit (e : Event) : M unit := fun _ tr => (Ok tt, tr ++ [e]).
Definition panic {A} (msg : string) : M A := fun _ tr => (Panic msg, tr).
Definition os_Exit {A} (code : Z) : M A := fun _ tr => (Exit code, tr).
Definition block {A} : M A := fun _ tr => (Blocked, tr).
Definition ask : M World := fun w tr => (Ok w, tr).
Definition history : M (list Event) := fun _ tr => (Ok tr, tr).

(** [*p] *)
Definition deref {A} (p : option A) : M A :=
  match p with
  | Some a => ret a
  | None => panic nil_dereference
  end.

(** [for _, x := range xs { acc = body(acc, x) }] *)
Fixpoint range {A S} (xs : list A) (body : S -> A -> M S) (acc : S) : M S :=
  match xs with
  | [] => ret acc
  | x :: xs' => acc' <- body acc x ; range xs' body acc'
  end.

(* ===================================================================== *)
(** ** Library calls with effects *)
(* ===================================================================== *)

Definition os_LookupEnv (key : string) : M (option string) :=
  _ <- emit (EvLookupEnv key) ;
  w <- ask ;
  ret (environ w !! key).

(** [envconfig.Process("", &cfg)] for the struct [Config]: its only field is
    tagged [envconfig:"VERSION" required:"true"], so the key [VERSION] is
    looked up; an unset variable is an error, a set one (also when empty) is
    stored in the field.  The look-ups envconfig makes for the one field
    appear as one event. *)
Definition envconfig_Process (cfg : Config) : M (Config * option error) :=
  v <- os_LookupEnv "VERSION" ;
  match v with
  | Some value => ret ({| VERSION := value |}, None)
  | None => ret (cfg, Some "required key VERSION missing value")
  end.

Definition log_Printf (msg : string) : M unit := emit (EvLog msg).

(** [log.Fatal] and [log.Fatalf]: print, then [os.Exit(1)]. *)
Definition log_Fatal {A} (msg : string) : M A :=
  _ <- emit (EvLog msg) ; os_Exit 1.

Definition config_LoadDefaultConfig (ctx : context_Context)
  : M (aws_Config + error) :=
  _ <- emit EvLoadDefaultConfig ;
  w <- ask ;
  ret (LoadDefaultConfig_result w).

(** The output of [GetCallerIdentity] is discarded by the caller; only the
    error is kept. *)
Definition GetCallerIdentity (cl : sts_Client) (ctx : context_Context)
    (input : GetCallerIdentityInput) : M (option error) :=
  _ <- emit (EvCall CallGetCallerIdentity) ;
  w <- ask ;
  ret (GetCallerIdentity_reply w (sts_options cl)).

Definition ListBuckets (cl : s3_Client) (ctx : context_Context)
    (input : ListBucketsInput) : M (ListBucketsOutput + error) :=
  w <- ask ;
  h <- history ;
  _ <- emit (EvCall CallListBuckets) ;
  ret (ListBuckets_reply w (s3_options cl) h).

Definition DescribeParameters (cl : ssm_Client) (ctx : context_Context)
    (input : DescribeParametersInput) : M (DescribeParametersOutput + error) :=
  w <- ask ;
  h <- history ;
  _ <- emit (EvCall CallDescribeParameters) ;
  ret (DescribeParameters_reply w (ssm_options cl) h).

Definition GetParameter (cl : ssm_Client) (ctx : context_Context)
    (input : GetParameterInput) : M (GetParameterOutput + error) :=
  w <- ask ;
  h <- history ;
  _ <- emit (EvCall (CallGetParameter input)) ;
  ret (GetParameter_reply w (ssm_options cl) h input).

(* ===================================================================== *)
(** ** gin: writing the response *)
(* ===================================================================== *)

Definition HandlerFunc : Type := Context -> M Context.

Definition set_status (code : Z) (w : responseWriter) : responseWriter :=
  {| status := code; written := written w;
     header := header w; body := body w |}.

(** [responseWriter.WriteHeader]: a status already sent is kept. *)
Definition WriteHeader (w : responseWriter) (code : Z) : responseWriter :=
  if (0 <? code)%Z && negb (status w =? code)%Z
  then (if written w then w else set_status code w)
  else w.

Definition with_Writer (c : Context) (w : responseWriter) : Context :=
  {| Request_ := Request_ c; Params := Params c; Writer := w |}.

(** [c.Status(code)] *)
Definition Status (c : Context) (code : Z) : M Context :=
  ret (with_Writer c (WriteHeader (Writer c) code)).

(** [c.Param(key)] *)
Definition Param_ (c : Context) (key : string) : string :=
  ByName (Params c) key.

Definition bodyAllowedForStatus (code : Z) : bool :=
  if ((100 <=? code) && (code <=? 199))%Z then false
  else if (code =? 204)%Z then false
  else if (code =? 304)%Z then false
  else true.

Definition jsonContentType : string * string :=
  ("Content-Type", "application/json; charset=utf-8").

Definition has_header (key : string) (h : list (string * string)) : bool :=
  existsb (fun kv => bool_decide (fst kv = key)) h.

(** The content type is set unless one is there already. *)
Definition writeContentType (w : responseWriter) : responseWriter :=
  if has_header "Content-Type" (header w) then w
  else {| status := status w; written := written w;
          header := header w ++ [jsonContentType]; body := body w |}.

Definition Write (w : responseWriter) (p : body_part) : responseWriter :=
  {| status := status w; written := true;
     header := header w; body := body w ++ [p] |}.

Definition WriteHeaderNow (w : responseWriter) : responseWriter :=
  {| status := status w; written := true;
     header := header w; body := body w |}.

(** [c.JSON(code, obj)]: set the status, then render [obj]. *)
Definition JSON (c : Context) (code : Z) (obj : response) : M Context :=
  let w := WriteHeader (Writer c) code in
  if bodyAllowedForStatus code
  then ret (with_Writer c (Write (writeContentType w) (JSONBody (json_Marshal obj))))
  else ret (with_Writer c (WriteHeaderNow (writeContentType w))).

(* ===================================================================== *)
(** ** main.go *)
(* ===================================================================== *)

(** Every [return] of the Go function gives either [nil, err] or
    [&awsClients{...}, nil], hence the sum. *)
Definition newAWSClients (ctx : context_Context) : M (awsClients + error) :=
  r <- config_LoadDefaultConfig ctx ;
  match r with
  | inr err => ret (inr err)
  | inl cfg =>
      let stsClient := sts_NewFromConfig cfg in
      err <- GetCallerIdentity stsClient ctx Build_GetCallerIdentityInput ;
      match err with
      | Some err => ret (inr err)
      | None =>
          ret (inl {| s3 := s3_NewFromConfig cfg;
                      ssm := ssm_NewFromConfig cfg |})
      end
  end.

Definition listBucketsHandler (cl : awsClients) (version : string)
  : HandlerFunc :=
  fun c =>
    r <- ListBuckets (s3 cl) (Request_Context (Request_ c)) Build_ListBucketsInput ;
    match r with
    | inr err => Status c StatusInternalServerError
    | inl out =>
        names <- range (Buckets out)
                   (fun names b =>
                      n <- deref (s3types.Name b) ;
                      ret (append names n))
                   nil_slice ;
        JSON c StatusOK {| Version := version; Data := any_strings names |}
    end.

Definition listParametersHandler (cl : awsClients) (version : string)
  : HandlerFunc :=
  fun c =>
    r <- DescribeParameters (ssm cl) (Request_Context (Request_ c))
           Build_DescribeParametersInput ;
    match r with
    | inr err => Status c StatusInternalServerError
    | inl out =>
        names <- range (Parameters_ out)
                   (fun names p =>
                      n <- deref (ssmtypes.Name p) ;
                      ret (append names n))
                   nil_slice ;
        JSON c StatusOK {| Version := version; Data := any_strings names |}
    end.

Definition getParameterHandler (cl : awsClients) (version : string)
  : HandlerFunc :=
  fun c =>
    let name := Param_ c "name" in
    r <- GetParameter (ssm cl) (Request_Context (Request_ c))
           {| Name := Some name |} ;
    match r with
    | inr err => Status c StatusNotFound
    | inl out =>
        p <- deref (Parameter_ out) ;
        v <- deref (ssmtypes.Value p) ;
        JSON c StatusOK {| Version := version; Data := any_string v |}
    end.

Definition livenessHandler : HandlerFunc :=
  fun c => Status c StatusOK.

(* ===================================================================== *)
(** ** gin: the engine *)
(* ===================================================================== *)

Record RouteInfo := {
  route_Method : string;
  route_Path : string;
  route_Handler : HandlerFunc
}.

(** The engine of [gin.Default()]: a route table behind the Logger and
    Recovery middleware.  Logger's access log is left out of the trace. *)
Record Engine := { routes : list RouteInfo }.

Definition gin_Default : Engine := {| routes := [] |}.

Definition GET (r : Engine) (path : string) (h : HandlerFunc) : Engine :=
  {| routes := routes r ++
       [{| route_Method := "GET"; route_Path := path; route_Handler := h |}] |}.

Fixpoint find_route (rs : list RouteInfo) (req : Request)
  : option HandlerFunc :=
  match rs with
  | [] => None
  | r :: rs' =>
      if decide (route_Method r = Method req) then
        if decide (route_Path r = FullPath req) then Some (route_Handler r)
        else find_route rs' req
      else find_route rs' req
  end.

Definition default404Body : string := "404 page not found".

Definition mimePlain : string * string := ("Content-Type", "text/plain").

(** No route: the status is set, and unless something was written already
    the plain-text message is the body. *)
Definition serveError (c : Context) (code : Z) (msg : string) : M Context :=
  let w := set_status code (Writer c) in
  if written w then ret (with_Writer c w)
  else ret (with_Writer c
              (Write {| status := status w; written := written w;
                        header := [mimePlain]; body := body w |}
                 (PlainBody msg))).

(** Dispatch on the route the request matched.  A request is described
    after routing; the redirect the engine sends for a path that differs from
    a registered one by a trailing slash is not modelled, so the statements
    about the status and the body of an answer are for requests that matched
    a route. *)
Definition handleHTTPRequest (r : Engine) (c : Context) : M Context :=
  match find_route (routes r) (Request_ c) with
  | Some h => h c
  | None => serveError c StatusNotFound default404Body
  end.

(** [defer func() { if err := recover(); ... }()] *)
Definition recover {A} (m : M A) (handle : string -> M A) : M A :=
  fun w tr =>
    match m w tr with
    | (Panic msg, tr') => handle msg w tr'
    | other => other
    end.

(** [c.AbortWithStatus(code)] *)
Definition AbortWithStatus (c : Context) (code : Z) : M Context :=
  ret (with_Writer c (WriteHeaderNow (WriteHeader (Writer c) code))).

(** One request through the engine.  The handlers of this program write to
    the context only in their last statement, so when one panics the context
    is still the one the engine handed over; Recovery answers on it, and its
    log entry is shortened to one line. *)
Definition ServeHTTP (r : Engine) (req : Request) : M unit :=
  _ <- emit (EvRequest req) ;
  let c := newContext req in
  c' <- recover (handleHTTPRequest r c)
          (fun msg =>
             _ <- log_Printf ("[Recovery] panic recovered: " +:+ msg) ;
             AbortWithStatus c StatusInternalServerError) ;
  emit (EvResponse req (status (Writer c')) (body (Writer c'))).

(** [r.Run(addr)]: bind the address; on failure return the error, otherwise
    serve the requests as they arrive and never return.  Requests are served
    one after the other, in the order of [incoming]; the handlers share no
    mutable state. *)
Definition Run (r : Engine) (addr : string) : M (option error) :=
  _ <- emit (EvListen addr) ;
  w <- ask ;
  match Listen_result w addr with
  | Some err => ret (Some err)
  | None =>
      _ <- range (incoming w) (fun _ req => ServeHTTP r req) tt ;
      block
  end.

(* ===================================================================== *)
(** ** main *)
(* ===================================================================== *)

Definition main : M unit :=
  let cfg := {| VERSION := "" |} in
  p <- envconfig_Process cfg ;
  let cfg := fst p in
  let err := snd p in
  _ <- match err with
       | Some err => log_Fatal err
       | None => ret tt
       end ;
  let ctx := context_Background in
  q <- newAWSClients ctx ;
  match q with
  | inr err => panic ("AWS init failed: " +:+ err)
  | inl clients =>
      let r := gin_Default in
      let r := GET r "/buckets" (listBucketsHandler clients (VERSION cfg)) in
      let r := GET r "/parameters" (listParametersHandler clients (VERSION cfg)) in
      let r := GET r "/parameters/:name" (getParameterHandler clients (VERSION cfg)) in
      let r := GET r "/livez" livenessHandler in
      let addr := ":8081" in
      _ <- log_Printf ("Service listening on " +:+ addr) ;
      err <- Run r addr ;
      match err with
      | Some err => log_Fatal ("router error: " +:+ err)
      | None => ret tt
      end
  end.

(** A whole run of the process: how it ends and what it did. *)
Definition run (w : World) : Result unit * list Event := main w [].
Definition trace_of (w : World) : list Event := snd (run w).

(* ===================================================================== *)
(** ** Vocabulary of the statements *)
(* ===================================================================== *)

(** [m], run in world [w] after the trace [tr], returns normally with a
    context whose writer is [wr], and [evs] is what it added to the trace. *)
Definition answers (m : M Context) (w : World) (tr : list Event)
    (wr : responseWriter) (evs : list Event) : Prop :=
  exists c', m w tr = (Ok c', tr ++ evs) /\ Writer c' = wr.

(** [m] panics with [msg], having added [evs] to the trace. *)
Definition panics {A} (m : M A) (w : World) (tr : list Event)
    (msg : string) (evs : list Event) : Prop :=
  m w tr = (Panic msg, tr ++ evs).

(** A response that is a status line only: no header, no body. *)
Definition bare (code : Z) : responseWriter :=
  {| status := code; written := false; header := []; body := [] |}.

(** A response whose body is one JSON envelope. *)
Definition envelope (code : Z) (obj : response) : responseWriter :=
  {| status := code; written := true;
     header := [jsonContentType]; body := [JSONBody (json_Marshal obj)] |}.

(** The envelope whose [data] is JSON [null], and the response carrying
    it. *)
Definition null_envelope (version : string) : json :=
  JObject [("version", JString version); ("data", JNull)].

Definition null_answer (version : string) : responseWriter :=
  {| status := 200; written := true; header := [jsonContentType];
     body := [JSONBody (null_envelope version)] |}.

(** The slice the list handlers build: [names] appended one by one to the
    nil slice. *)
Definition appended (acc : slice string) (names : list string) : slice string :=
  fold_left append names acc.

(** The loop body shared by the two list handlers, over the accessor of the
    name pointer. *)
Definition name_loop {A} (f : A -> option string)
  : slice string -> A -> M (slice string) :=
  fun names b => n <- deref (f b) ; ret (append names n).

(** The input [getParameterHandler] sends for the context [c]. *)
Definition input_of (c : Context) : GetParameterInput :=
  {| Name := Some (Param_ c "name") |}.

(** The route table [main] registers. *)
Definition router (clients : awsClients) (version : string) : Engine :=
  GET (GET (GET (GET gin_Default
    "/buckets" (listBucketsHandler clients version))
    "/parameters" (listParametersHandler clients version))
    "/parameters/:name" (getParameterHandler clients version))
    "/livez" livenessHandler.

(** The clients [newAWSClients] returns for the configuration [cfg]. *)
Definition clients_of (cfg : aws_Config) : awsClients :=
  {| s3 := s3_NewFromConfig cfg; ssm := ssm_NewFromConfig cfg |}.

(** The requests [Run] serves, one after the other. *)
Definition serve (r : Engine) (reqs : list Request) : M unit :=
  range reqs (fun _ req => ServeHTTP r req) tt.

(** What a start-up that gets as far as [r.Run] leaves on the trace. *)
Definition boot : list Event :=
  [EvLookupEnv "VERSION"; EvLoadDefaultConfig; EvCall CallGetCallerIdentity;
   EvLog "Service listening on :8081"; EvListen ":8081"].

(** The routes that answer with an envelope. *)
Definition business (req : Request) : Prop :=
  FullPath req = "/buckets" \/ FullPath req = "/parameters" \/
  FullPath req = "/parameters/:name".

(** The envelope [{version, data}] as a JSON value. *)
Definition envelope_json (version : string) (d : json) : json :=
  JObject [("version", JString version); ("data", d)].

(** How a business handler may end: a panic, a bare status other than 200,
    or a 200 with one envelope carrying [version]. *)
Definition business_outcome (version : string) (r : Result Context) : Prop :=
  match r with
  | Ok c' =>
      (status (Writer c') <> 200%Z /\ body (Writer c') = []) \/
      (exists d, status (Writer c') = 200%Z /\
                 body (Writer c') = [JSONBody (envelope_json version d)])
  | Panic _ => True
  | Exit _ | Blocked => False
  end.

(** The events of the serving phase: requests, log lines, calls other than
    the identity check, and responses; a 200 on a business route carries one
    envelope with [version]. *)
Definition served (version : string) (e : Event) : Prop :=
  match e with
  | EvRequest _ | EvLog _ => True
  | EvCall c => c <> CallGetCallerIdentity
  | EvResponse req code b =>
      business req -> code = 200%Z ->
      exists d, b = [JSONBody (envelope_json version d)]
  | EvLookupEnv _ | EvLoadDefaultConfig | EvListen _ => False
  end.

Definition version_present (w : World) : Prop :=
  exists v, environ w !! "VERSION" = Some v.

(** The process got as far as calling [r.Run]: the bind is attempted, and
    may still fail. *)
Definition reaches_Run (w : World) : Prop :=
  exists addr, In (EvListen addr) (trace_of w).

(** Every occurrence of [a] in [tr] is strictly before every occurrence of
    [b], and no [b] occurs without an [a] before it. *)
Definition strictly_before (a b : Event) (tr : list Event) : Prop :=
  (forall i j : nat, tr !! i = Some a -> tr !! j = Some b -> i < j) /\
  (forall j : nat, tr !! j = Some b -> exists i : nat, i < j /\ tr !! i = Some a).

(** Worlds and requests used to exercise the statements. *)
Definition cfg0 : aws_Config :=
  {| Region := "eu-west-1"; Credentials := "task-role" |}.

Definition clients0 : awsClients :=
  {| s3 := s3_NewFromConfig cfg0; ssm := ssm_NewFromConfig cfg0 |}.

Definition get (path : string) (ps : list Param) : Request :=
  {| Method := "GET"; FullPath := path; PathParams := ps |}.

Definition named (v : string) : list Param := [{| Key := "name"; Value := v |}].

(** A healthy deployment: buckets [a], [b]; parameters [foo], [baz] listed;
    parameter [foo] holds [bar], any other name is not found. *)
Definition world0 : World := {|
  environ := {["VERSION" := "v1"]};
  LoadDefaultConfig_result := inl cfg0;
  GetCallerIdentity_reply := fun _ => None;
  ListBuckets_reply := fun _ _ =>
    inl {| Buckets := [{| s3types.Name := Some "a" |};
                       {| s3types.Name := Some "b" |}] |};
  DescribeParameters_reply := fun _ _ =>
    inl {| Parameters_ := [{| ssmtypes.Name := Some "foo" |};
                           {| ssmtypes.Name := Some "baz" |}] |};
  GetParameter_reply := fun _ _ i =>
    if decide (Name i = Some "foo")
    then inl {| Parameter_ := Some {| ssmtypes.Value := Some "bar" |} |}
    else inr "ParameterNotFound";
  Listen_result := fun _ => None;
  incoming := [get "/buckets" []; get "/parameters/:name" (named "foo");
               get "/livez" []]
|}.

(** An account with no bucket and no parameter. *)
Definition world_empty : World := {|
  environ := {["VERSION" := "v1"]};
  LoadDefaultConfig_result := inl cfg0;
  GetCallerIdentity_reply := fun _ => None;
  ListBuckets_reply := fun _ _ => inl {| Buckets := [] |};
  DescribeParameters_reply := fun _ _ => inl {| Parameters_ := [] |};
  GetParameter_reply := fun _ _ _ => inr "ParameterNotFound";
  Listen_result := fun _ => None;
  incoming := [get "/buckets" []; get "/parameters" []]
|}.

(** AWS is down: every call fails. *)
Definition world_down : World := {|
  environ := {["VERSION" := "v1"]};
  LoadDefaultConfig_result := inl cfg0;
  GetCallerIdentity_reply := fun _ => None;
  ListBuckets_reply := fun _ _ => inr "RequestTimeout";
  DescribeParameters_reply := fun _ _ => inr "ThrottlingException";
  GetParameter_reply := fun _ _ _ => inr "InternalServerError";
  Listen_result := fun _ => None;
  incoming := []
|}.

(** Successful answers in which a pointer field is nil. *)
Definition world_nil : World := {|
  environ := {["VERSION" := "v1"]};
  LoadDefaultConfig_result := inl cfg0;
  GetCallerIdentity_reply := fun _ => None;
  ListBuckets_reply := fun _ _ =>
    inl {| Buckets := [{| s3types.Name := Some "a" |};
                       {| s3types.Name := None |}] |};
  DescribeParameters_reply := fun _ _ =>
    inl {| Parameters_ := [{| ssmtypes.Name := None |}] |};
  GetParameter_reply := fun _ _ _ =>
    inl {| Parameter_ := Some {| ssmtypes.Value := None |} |};
  Listen_result := fun _ => None;
  incoming := []
|}.

(** The version is set and the identity service accepts any caller, but the
    SDK cannot load its configuration. *)
Definition world_badconfig : World := {|
  environ := {["VERSION" := "v1"]};
  LoadDefaultConfig_result := inr "failed to load shared config";
  GetCallerIdentity_reply := fun _ => None;
  ListBuckets_reply := fun _ _ => inl {| Buckets := [] |};
  DescribeParameters_reply := fun _ _ => inl {| Parameters_ := [] |};
  GetParameter_reply := fun _ _ _ => inr "ParameterNotFound";
  Listen_result := fun _ => None;
  incoming := []
|}.

(** No [VERSION] in the environment. *)
Definition world_noversion : World := {|
  environ := {["GIN_MODE" := "release"]};
  LoadDefaultConfig_result := inl cfg0;
  GetCallerIdentity_reply := fun _ => None;
  ListBuckets_reply := fun _ _ => inl {| Buckets := [] |};
  DescribeParameters_reply := fun _ _ => inl {| Parameters_ := [] |};
  GetParameter_reply := fun _ _ _ => inr "ParameterNotFound";
  Listen_result := fun _ => None;
  incoming := [get "/livez" []]
|}.

(* ===================================================================== *)
(** ** Vocabulary for whole traces *)
(* ===================================================================== *)

(** The outbound call of the route a request matched, for the three routes
    that make one: [main] registers them under GET only, and
    [getParameterHandler] sends the path parameter as it came. *)
Definition call_of (req : Request) : option Call :=
  if decide (Method req = "GET") then
    if decide (FullPath req = "/buckets") then Some CallListBuckets
    else if decide (FullPath req = "/parameters") then
      Some CallDescribeParameters
    else if decide (FullPath req = "/parameters/:name") then
      Some (CallGetParameter {| Name := Some (ByName (PathParams req) "name") |})
    else None
  else None.

Definition is_livez (req : Request) : Prop :=
  Method req = "GET" /\ FullPath req = "/livez".

(** The request matched one of the four routes [main] registers, so that
    one of the handlers of [main.go] answers it. *)
Definition routed (req : Request) : Prop :=
  Method req = "GET" /\
  (FullPath req = "/buckets" \/ FullPath req = "/parameters" \/
   FullPath req = "/parameters/:name" \/ FullPath req = "/livez").

(** The status a business handler sets when its remote call fails. *)
Definition error_status (req : Request) : Z :=
  if decide (FullPath req = "/parameters/:name") then 404%Z else 500%Z.

(** The three ways a business handler ends on a fresh context: one envelope
    with [version], a bare [code], or the nil-dereference panic. *)
Inductive handler_ends (version : string) (code : Z) : Result Context -> Prop :=
| ends_envelope c' d :
    Writer c' = envelope 200 {| Version := version; Data := d |} ->
    handler_ends version code (Ok c')
| ends_error c' :
    Writer c' = bare code ->
    handler_ends version code (Ok c')
| ends_panic :
    handler_ends version code (Panic nil_dereference).

(** What one request leaves on the trace. *)
Inductive request_events (version : string) (req : Request)
  : list Event -> Prop :=
| served_envelope c d :
    call_of req = Some c ->
    request_events version req
      [EvRequest req; EvCall c;
       EvResponse req 200 [JSONBody (envelope_json version d)]]
| served_error c :
    call_of req = Some c ->
    request_events version req
      [EvRequest req; EvCall c; EvResponse req (error_status req) []]
| served_panic c :
    call_of req = Some c ->
    request_events version req
      [EvRequest req; EvCall c;
       EvLog ("[Recovery] panic recovered: " +:+ nil_dereference);
       EvResponse req 500 []]
| served_livez :
    is_livez req ->
    request_events version req [EvRequest req; EvResponse req 200 []]
| served_no_route :
    call_of req = None ->
    ~ is_livez req ->
    request_events version req
      [EvRequest req; EvResponse req 404 [PlainBody default404Body]].

(** What a sequence of requests leaves on the trace. *)
Inductive serving_events (version : string)
  : list Request -> list Event -> Prop :=
| serving_done : serving_events version [] []
| serving_next req reqs evs evs' :
    request_events version req evs ->
    serving_events version reqs evs' ->
    serving_events version (req :: reqs) (evs ++ evs').

(** Projections of a trace: the outbound calls, the requests received, the
    requests answered. *)
Definition calls_of (tr : list Event) : list Call :=
  omap (fun e => match e with EvCall c => Some c | _ => None end) tr.

Definition requested (tr : list Event) : list Request :=
  omap (fun e => match e with EvRequest req => Some req | _ => None end) tr.

Definition answered (tr : list Event) : list Request :=
  omap (fun e => match e with EvResponse req _ _ => Some req | _ => None end) tr.

(** The JSON of the [data] field for a list of names. *)
Definition names_json (names : list string) : json :=
  match names with
  | [] => JNull
  | _ :: _ => JArray (map JString names)
  end.

(** More worlds.  The credentials are rejected. *)
Definition world_badcreds : World := {|
  environ := {["VERSION" := "v1"]};
  LoadDefaultConfig_result := inl cfg0;
  GetCallerIdentity_reply := fun _ => Some "ExpiredToken";
  ListBuckets_reply := fun _ _ => inl {| Buckets := [] |};
  DescribeParameters_reply := fun _ _ => inl {| Parameters_ := [] |};
  GetParameter_reply := fun _ _ _ => inr "ParameterNotFound";
  Listen_result := fun _ => None;
  incoming := [get "/livez" []]
|}.

(** The port is taken. *)
Definition world_portbusy : World := {|
  environ := {["VERSION" := "v1"]};
  LoadDefaultConfig_result := inl cfg0;
  GetCallerIdentity_reply := fun _ => None;
  ListBuckets_reply := fun _ _ => inl {| Buckets := [] |};
  DescribeParameters_reply := fun _ _ => inl {| Parameters_ := [] |};
  GetParameter_reply := fun _ _ _ => inr "ParameterNotFound";
  Listen_result := fun _ => Some "listen tcp :8081: bind: address already in use";
  incoming := [get "/livez" []; get "/buckets" []]
|}.

(** A rough day: a bucket without a name, the parameter listing throttled,
    one parameter readable; and a client that posts. *)
Definition world_rough : World := {|
  environ := {["VERSION" := "v1"]};
  LoadDefaultConfig_result := inl cfg0;
  GetCallerIdentity_reply := fun _ => None;
  ListBuckets_reply := fun _ _ =>
    inl {| Buckets := [{| s3types.Name := None |}] |};
  DescribeParameters_reply := fun _ _ => inr "ThrottlingException";
  GetParameter_reply := fun _ _ i =>
    if decide (Name i = Some "foo")
    then inl {| Parameter_ := Some {| ssmtypes.Value := Some "bar" |} |}
    else inr "ParameterNotFound";
  Listen_result := fun _ => None;
  incoming := [get "/buckets" []; get "/parameters" [];
               get "/parameters/:name" (named "foo");
               {| Method := "POST"; FullPath := "/buckets"; PathParams := [] |};
               get "/livez" []]
|}.

(* ===================================================================== *)
(** ** The loop of the list handlers *)
(* ===================================================================== *)

Section NameLoop.
Context {A : Type} (f : A -> option string).

Lemma elems_appended (names : list string) :
  forall acc, elems_of (appended acc names) = elems_of acc ++ names.
Proof.
  induction names as [|n names IH]; intros acc.
  - simpl. by rewrite app_nil_r.
  - change (appended acc (n :: names)) with (appended (append acc n) names).
    rewrite IH. simpl. by rewrite <- app_assoc.
Qed.

(** When no pointer is nil the loop ends with all the names appended, in
    order, and leaves the trace alone. *)
Lemma range_names_ok (l : list A) :
  forall names acc w tr,
    map f l = map Some names ->
    range l (name_loop f) acc w tr = (Ok (appended acc names), tr).
Proof.
  induction l as [|x l IH]; intros [|n names] acc w tr H;
    simpl in H; try discriminate.
  - reflexivity.
  - injection H as Hx Hl. simpl.
    unfold bind at 1. unfold name_loop at 1. unfold bind at 1.
    rewrite Hx. simpl. by apply IH.
Qed.

(** A nil pointer anywhere in the list makes the loop panic. *)
Lemma range_names_nil (l : list A) :
  forall acc w tr,
    In None (map f l) ->
    range l (name_loop f) acc w tr = (Panic nil_dereference, tr).
Proof.
  induction l as [|x l IH]; intros acc w tr H; simpl in H; [contradiction|].
  simpl. unfold bind at 1. unfold name_loop at 1. unfold bind at 1.
  destruct (f x) as [n|] eqn:Hx; simpl.
  - apply IH. destruct H as [H|H]; [discriminate | exact H].
  - reflexivity.
Qed.

(** Either every pointer is set or one of them is nil. *)
Lemma names_or_nil (l : list A) :
  (exists names, map f l = map Some names) \/ In None (map f l).
Proof.
  induction l as [|x l [[names IH]|IH]]; simpl.
  - left. by exists [].
  - destruct (f x) as [n|]; [left | right; by left].
    exists (n :: names). simpl. by rewrite IH.
  - right. by right.
Qed.
End NameLoop.

Lemma appended_nil_slice (names : list string) :
  elems_of (appended nil_slice names) = names.
Proof. by rewrite elems_appended. Qed.

(* ===================================================================== *)
(** ** Running a bind *)
(* ===================================================================== *)

Lemma bind_Ok {A B} (m : M A) (k : A -> M B) w tr a tr' :
  m w tr = (Ok a, tr') -> bind m k w tr = k a w tr'.
Proof. intros H. unfold bind. by rewrite H. Qed.

Lemma bind_Panic {A B} (m : M A) (k : A -> M B) w tr msg tr' :
  m w tr = (Panic msg, tr') -> bind m k w tr = (Panic msg, tr').
Proof. intros H. unfold bind. by rewrite H. Qed.

(** Replace [bind m k w tr] by its continuation, given how [m] ends. *)
Ltac run_ok H := etrans; [apply bind_Ok; exact H | cbv beta].
Ltac run_panic H := etrans; [apply bind_Panic; exact H | cbv beta].

Lemma ListBuckets_run cl ctx input w tr :
  ListBuckets cl ctx input w tr =
    (Ok (ListBuckets_reply w (s3_options cl) tr),
     tr ++ [EvCall CallListBuckets]).
Proof. reflexivity. Qed.

Lemma DescribeParameters_run cl ctx input w tr :
  DescribeParameters cl ctx input w tr =
    (Ok (DescribeParameters_reply w (ssm_options cl) tr),
     tr ++ [EvCall CallDescribeParameters]).
Proof. reflexivity. Qed.

Lemma GetParameter_run cl ctx input w tr :
  GetParameter cl ctx input w tr =
    (Ok (GetParameter_reply w (ssm_options cl) tr input),
     tr ++ [EvCall (CallGetParameter input)]).
Proof. reflexivity. Qed.

(* ===================================================================== *)
(** ** What each handler does, case by case *)
(* ===================================================================== *)

Lemma listBucketsHandler_error cl version c w tr e :
  ListBuckets_reply w (s3_options (s3 cl)) tr = inr e ->
  listBucketsHandler cl version c w tr =
    (Ok (with_Writer c (WriteHeader (Writer c) 500)),
     tr ++ [EvCall CallListBuckets]).
Proof.
  intros H. unfold listBucketsHandler.
  run_ok (ListBuckets_run (s3 cl) (Request_Context (Request_ c))
            Build_ListBucketsInput w tr).
  by rewrite H.
Qed.

Lemma listBucketsHandler_names cl version c w tr out names :
  ListBuckets_reply w (s3_options (s3 cl)) tr = inl out ->
  map s3types.Name (Buckets out) = map Some names ->
  listBucketsHandler cl version c w tr =
    JSON c 200 {| Version := version;
                  Data := any_strings (appended nil_slice names) |}
      w (tr ++ [EvCall CallListBuckets]).
Proof.
  intros H Hn. unfold listBucketsHandler.
  run_ok (ListBuckets_run (s3 cl) (Request_Context (Request_ c))
            Build_ListBucketsInput w tr).
  rewrite H.
  by run_ok (range_names_ok s3types.Name (Buckets out) names nil_slice w
               (tr ++ [EvCall CallListBuckets]) Hn).
Qed.

Lemma listBucketsHandler_nil cl version c w tr out :
  ListBuckets_reply w (s3_options (s3 cl)) tr = inl out ->
  In None (map s3types.Name (Buckets out)) ->
  listBucketsHandler cl version c w tr =
    (Panic nil_dereference, tr ++ [EvCall CallListBuckets]).
Proof.
  intros H Hn. unfold listBucketsHandler.
  run_ok (ListBuckets_run (s3 cl) (Request_Context (Request_ c))
            Build_ListBucketsInput w tr).
  rewrite H.
  by run_panic (range_names_nil s3types.Name (Buckets out) nil_slice w
                  (tr ++ [EvCall CallListBuckets]) Hn).
Qed.

Lemma listParametersHandler_error cl version c w tr e :
  DescribeParameters_reply w (ssm_options (ssm cl)) tr = inr e ->
  listParametersHandler cl version c w tr =
    (Ok (with_Writer c (WriteHeader (Writer c) 500)),
     tr ++ [EvCall CallDescribeParameters]).
Proof.
  intros H. unfold listParametersHandler.
  run_ok (DescribeParameters_run (ssm cl) (Request_Context (Request_ c))
            Build_DescribeParametersInput w tr).
  by rewrite H.
Qed.

Lemma listParametersHandler_names cl version c w tr out names :
  DescribeParameters_reply w (ssm_options (ssm cl)) tr = inl out ->
  map ssmtypes.Name (Parameters_ out) = map Some names ->
  listParametersHandler cl version c w tr =
    JSON c 200 {| Version := version;
                  Data := any_strings (appended nil_slice names) |}
      w (tr ++ [EvCall CallDescribeParameters]).
Proof.
  intros H Hn. unfold listParametersHandler.
  run_ok (DescribeParameters_run (ssm cl) (Request_Context (Request_ c))
            Build_DescribeParametersInput w tr).
  rewrite H.
  by run_ok (range_names_ok ssmtypes.Name (Parameters_ out) names nil_slice w
               (tr ++ [EvCall CallDescribeParameters]) Hn).
Qed.

Lemma listParametersHandler_nil cl version c w tr out :
  DescribeParameters_reply w (ssm_options (ssm cl)) tr = inl out ->
  In None (map ssmtypes.Name (Parameters_ out)) ->
  listParametersHandler cl version c w tr =
    (Panic nil_dereference, tr ++ [EvCall CallDescribeParameters]).
Proof.
  intros H Hn. unfold listParametersHandler.
  run_ok (DescribeParameters_run (ssm cl) (Request_Context (Request_ c))
            Build_DescribeParametersInput w tr).
  rewrite H.
  by run_panic (range_names_nil ssmtypes.Name (Parameters_ out) nil_slice w
                  (tr ++ [EvCall CallDescribeParameters]) Hn).
Qed.

Lemma getParameterHandler_cases cl version c w tr :
  getParameterHandler cl version c w tr =
    let tr' := tr ++ [EvCall (CallGetParameter (input_of c))] in
    match GetParameter_reply w (ssm_options (ssm cl)) tr (input_of c) with
    | inr _ => (Ok (with_Writer c (WriteHeader (Writer c) 404)), tr')
    | inl out =>
        match Parameter_ out with
        | None => (Panic nil_dereference, tr')
        | Some p =>
            match ssmtypes.Value p with
            | None => (Panic nil_dereference, tr')
            | Some v =>
                JSON c 200 {| Version := version; Data := any_string v |} w tr'
            end
        end
    end.
Proof.
  unfold getParameterHandler. cbv zeta.
  run_ok (GetParameter_run (ssm cl) (Request_Context (Request_ c))
            (input_of c) w tr).
  destruct (GetParameter_reply _ _ _ _) as [out|e]; [|reflexivity].
  destruct (Parameter_ out) as [p|]; [|reflexivity].
  destruct p as [[v|]]; reflexivity.
Qed.

(** On a context fresh from the engine, [c.JSON(200, obj)] leaves exactly
    one envelope; [c.Status(code)] leaves a bare status. *)
Lemma JSON_fresh req obj w tr :
  JSON (newContext req) 200 obj w tr =
    (Ok (with_Writer (newContext req) (envelope 200 obj)), tr).
Proof. reflexivity. Qed.

Lemma WriteHeader_fresh req code :
  (0 < code)%Z ->
  WriteHeader (Writer (newContext req)) code = bare code.
Proof.
  intros H. unfold WriteHeader.
  change (status (Writer (newContext req))) with 200%Z.
  change (written (Writer (newContext req))) with false.
  rewrite (proj2 (Z.ltb_lt 0 code) H).
  destruct (Z.eqb_spec 200 code) as [<-|_]; reflexivity.
Qed.

(* ===================================================================== *)
(** ** The handlers, one request at a time *)
(* ===================================================================== *)

(** C1, as the claim states it, fails: [ListBuckets] succeeds and returns
    two buckets, the second without a name, and [listBucketsHandler] panics
    on [*b.Name] instead of answering 200 (or anything at all).  What the
    client gets, from the Recovery middleware, is a bare 500. *)
Lemma list_success_counterexample :
  ListBuckets_reply world_nil (s3_options (s3 clients0)) [] =
    inl {| Buckets := [{| s3types.Name := Some "a" |};
                       {| s3types.Name := None |}] |} /\
  listBucketsHandler clients0 "v1" (newContext (get "/buckets" [])) world_nil []
    = (Panic nil_dereference, [EvCall CallListBuckets]) /\
  ~ (exists wr evs,
       answers (listBucketsHandler clients0 "v1" (newContext (get "/buckets" [])))
         world_nil [] wr evs) /\
  ServeHTTP (router clients0 "v1") (get "/buckets" []) world_nil [] =
    (Ok tt,
     [EvRequest (get "/buckets" []);
      EvCall CallListBuckets;
      EvLog ("[Recovery] panic recovered: " +:+ nil_dereference);
      EvResponse (get "/buckets" []) 500 []]).
Proof.
  split; [reflexivity|]. split; [reflexivity|]. split; [|reflexivity].
  intros (wr & evs & c' & H & _). vm_compute in H. discriminate.
Qed.

(** C1, amended: when the remote list call succeeds and every returned item
    has a name (no [Name] pointer is nil), the list handler makes exactly
    that one call and answers 200 with the envelope [{version, data}], where
    [data] is the slice holding the item names in the order returned.  Both
    [/buckets] and [/parameters]. *)
Theorem list_handlers_success cl version req w tr :
  (forall out names,
     ListBuckets_reply w (s3_options (s3 cl)) tr = inl out ->
     map s3types.Name (Buckets out) = map Some names ->
     exists s, elems_of s = names /\
       answers (listBucketsHandler cl version (newContext req)) w tr
         (envelope 200 {| Version := version; Data := any_strings s |})
         [EvCall CallListBuckets]) /\
  (forall out names,
     DescribeParameters_reply w (ssm_options (ssm cl)) tr = inl out ->
     map ssmtypes.Name (Parameters_ out) = map Some names ->
     exists s, elems_of s = names /\
       answers (listParametersHandler cl version (newContext req)) w tr
         (envelope 200 {| Version := version; Data := any_strings s |})
         [EvCall CallDescribeParameters]).
Proof.
  split; intros out names H Hn; exists (appended nil_slice names);
    (split; [apply appended_nil_slice|]); eexists; split.
  - rewrite (listBucketsHandler_names _ _ _ _ _ _ _ H Hn). apply JSON_fresh.
  - reflexivity.
  - rewrite (listParametersHandler_names _ _ _ _ _ _ _ H Hn). apply JSON_fresh.
  - reflexivity.
Qed.

Lemma list_handlers_success_witness :
  (exists s, elems_of s = ["a"; "b"] /\
     answers (listBucketsHandler clients0 "v1" (newContext (get "/buckets" [])))
       world0 []
       (envelope 200 {| Version := "v1"; Data := any_strings s |})
       [EvCall CallListBuckets]) /\
  (exists s, elems_of s = ["foo"; "baz"] /\
     answers (listParametersHandler clients0 "v1"
                (newContext (get "/parameters" [])))
       world0 [EvCall CallListBuckets]
       (envelope 200 {| Version := "v1"; Data := any_strings s |})
       [EvCall CallDescribeParameters]).
Proof.
  split.
  - apply (proj1 (list_handlers_success clients0 "v1" (get "/buckets" [])
                    world0 [])
             {| Buckets := [{| s3types.Name := Some "a" |};
                            {| s3types.Name := Some "b" |}] |});
      reflexivity.
  - apply (proj2 (list_handlers_success clients0 "v1" (get "/parameters" [])
                    world0 [EvCall CallListBuckets])
             {| Parameters_ := [{| ssmtypes.Name := Some "foo" |};
                                {| ssmtypes.Name := Some "baz" |}] |});
      reflexivity.
Defined.

(** C2: whatever error [GetParameter] returns, "not found" or any other,
    [getParameterHandler] answers 404 with no header and no body, after that
    one call. *)
Theorem getParameter_error_404 cl version req w tr e :
  GetParameter_reply w (ssm_options (ssm cl)) tr (input_of (newContext req))
    = inr e ->
  answers (getParameterHandler cl version (newContext req)) w tr
    (bare 404) [EvCall (CallGetParameter (input_of (newContext req)))].
Proof.
  intros H. eexists. split.
  - rewrite getParameterHandler_cases. cbv zeta. rewrite H. reflexivity.
  - by apply (WriteHeader_fresh req 404).
Qed.

Lemma getParameter_error_404_witness :
  GetParameter_reply world0 cfg0 [] {| Name := Some "missing" |}
    = inr "ParameterNotFound" /\
  GetParameter_reply world_down cfg0 [] {| Name := Some "missing" |}
    = inr "InternalServerError" /\
  answers (getParameterHandler clients0 "v1"
             (newContext (get "/parameters/:name" (named "missing"))))
    world0 [] (bare 404)
    [EvCall (CallGetParameter {| Name := Some "missing" |})] /\
  answers (getParameterHandler clients0 "v1"
             (newContext (get "/parameters/:name" (named "missing"))))
    world_down [] (bare 404)
    [EvCall (CallGetParameter {| Name := Some "missing" |})].
Proof.
  split; [reflexivity|]. split; [reflexivity|]. split.
  - apply (getParameter_error_404 clients0 "v1"
             (get "/parameters/:name" (named "missing")) world0 []
             "ParameterNotFound").
    reflexivity.
  - apply (getParameter_error_404 clients0 "v1"
             (get "/parameters/:name" (named "missing")) world_down []
             "InternalServerError").
    reflexivity.
Defined.

(** C5: [livenessHandler] answers 200 with no header and no body and adds
    nothing to the trace, so it makes no outbound call, in every world and
    after every history; it is not even given the clients.  Through the route
    table of [main], for any client bundle, [GET /livez] produces the request
    and that response and nothing in between. *)
Theorem livez_always_ok req w tr :
  answers (livenessHandler (newContext req)) w tr (bare 200) [] /\
  forall clients version ps,
    ServeHTTP (router clients version) (get "/livez" ps) w tr =
      (Ok tt, tr ++ [EvRequest (get "/livez" ps);
                     EvResponse (get "/livez" ps) 200 []]).
Proof.
  split.
  - eexists. split.
    + unfold livenessHandler, Status, ret. by rewrite app_nil_r.
    + reflexivity.
  - intros clients version ps.
    unfold ServeHTTP, bind, emit, recover, handleHTTPRequest. simpl.
    by rewrite <- app_assoc.
Qed.

(** C6: whatever error the remote list call returns, the list handler
    answers 500 with no header and no body: nothing of the error reaches the
    client.  Both [/buckets] and [/parameters]. *)
Theorem list_handlers_error_500 cl version req w tr e :
  (ListBuckets_reply w (s3_options (s3 cl)) tr = inr e ->
   answers (listBucketsHandler cl version (newContext req)) w tr
     (bare 500) [EvCall CallListBuckets]) /\
  (DescribeParameters_reply w (ssm_options (ssm cl)) tr = inr e ->
   answers (listParametersHandler cl version (newContext req)) w tr
     (bare 500) [EvCall CallDescribeParameters]).
Proof.
  split; intros H; eexists; split.
  - apply (listBucketsHandler_error _ _ _ _ _ _ H).
  - by apply (WriteHeader_fresh req 500).
  - apply (listParametersHandler_error _ _ _ _ _ _ H).
  - by apply (WriteHeader_fresh req 500).
Qed.

Lemma list_handlers_error_500_witness :
  ListBuckets_reply world_down cfg0 [] = inr "RequestTimeout" /\
  DescribeParameters_reply world_down cfg0 [] = inr "ThrottlingException" /\
  answers (listBucketsHandler clients0 "v1" (newContext (get "/buckets" [])))
    world_down [] (bare 500) [EvCall CallListBuckets] /\
  answers (listParametersHandler clients0 "v1"
             (newContext (get "/parameters" [])))
    world_down [] (bare 500) [EvCall CallDescribeParameters].
Proof.
  split; [reflexivity|]. split; [reflexivity|]. split.
  - apply (proj1 (list_handlers_error_500 clients0 "v1" (get "/buckets" [])
                    world_down [] "RequestTimeout")).
    reflexivity.
  - apply (proj2 (list_handlers_error_500 clients0 "v1" (get "/parameters" [])
                    world_down [] "ThrottlingException")).
    reflexivity.
Defined.

(** C7, as the claim states it, fails: [GetParameter] succeeds with a
    parameter whose [Value] pointer is nil, and [getParameterHandler] panics
    on [*out.Parameter.Value] instead of answering 200.  What the client
    gets, from the Recovery middleware, is a bare 500. *)
Lemma getParameter_success_counterexample :
  GetParameter_reply world_nil (ssm_options (ssm clients0)) []
      (input_of (newContext (get "/parameters/:name" (named "foo")))) =
    inl {| Parameter_ := Some {| ssmtypes.Value := None |} |} /\
  getParameterHandler clients0 "v1"
      (newContext (get "/parameters/:name" (named "foo"))) world_nil []
    = (Panic nil_dereference,
       [EvCall (CallGetParameter {| Name := Some "foo" |})]) /\
  ~ (exists wr evs,
       answers (getParameterHandler clients0 "v1"
                  (newContext (get "/parameters/:name" (named "foo"))))
         world_nil [] wr evs) /\
  ServeHTTP (router clients0 "v1") (get "/parameters/:name" (named "foo"))
      world_nil [] =
    (Ok tt,
     [EvRequest (get "/parameters/:name" (named "foo"));
      EvCall (CallGetParameter {| Name := Some "foo" |});
      EvLog ("[Recovery] panic recovered: " +:+ nil_dereference);
      EvResponse (get "/parameters/:name" (named "foo")) 500 []]).
Proof.
  split; [reflexivity|]. split; [reflexivity|]. split; [|reflexivity].
  intros (wr & evs & c' & H & _). vm_compute in H. discriminate.
Qed.

(** C7, amended: when [GetParameter] succeeds and the output carries a
    parameter with a value (neither [Parameter] nor [Parameter.Value] is
    nil), [getParameterHandler] answers 200 with the envelope
    [{version, data: v}], [v] being that value as a string, after that one
    call. *)
Theorem getParameter_success cl version req w tr out p v :
  GetParameter_reply w (ssm_options (ssm cl)) tr (input_of (newContext req))
    = inl out ->
  Parameter_ out = Some p ->
  ssmtypes.Value p = Some v ->
  answers (getParameterHandler cl version (newContext req)) w tr
    (envelope 200 {| Version := version; Data := any_string v |})
    [EvCall (CallGetParameter (input_of (newContext req)))].
Proof.
  intros H Hp Hv. eexists. split.
  - rewrite getParameterHandler_cases. cbv zeta. rewrite H, Hp, Hv.
    apply JSON_fresh.
  - reflexivity.
Qed.

Lemma getParameter_success_witness :
  GetParameter_reply world0 cfg0 [] {| Name := Some "foo" |} =
    inl {| Parameter_ := Some {| ssmtypes.Value := Some "bar" |} |} /\
  answers (getParameterHandler clients0 "v1"
             (newContext (get "/parameters/:name" (named "foo"))))
    world0 []
    {| status := 200; written := true; header := [jsonContentType];
       body := [JSONBody (JObject [("version", JString "v1");
                                   ("data", JString "bar")])] |}
    [EvCall (CallGetParameter {| Name := Some "foo" |})].
Proof.
  split; [reflexivity|].
  apply (getParameter_success clients0 "v1"
           (get "/parameters/:name" (named "foo")) world0 []
           {| Parameter_ := Some {| ssmtypes.Value := Some "bar" |} |}
           {| ssmtypes.Value := Some "bar" |} "bar");
    reflexivity.
Defined.

(** C9: when the remote list call succeeds with zero items the loop never
    appends, the slice stays nil, and the handler answers 200 with an
    envelope whose [data] is JSON [null]; its text ends in [:null}] whatever
    the quoting of strings.  An empty non-nil slice would have been encoded as
    the array [[]], which is a different value with a different text.  Both
    [/buckets] and [/parameters]. *)
Theorem list_handlers_empty_null cl version req w tr :
  (forall out,
     ListBuckets_reply w (s3_options (s3 cl)) tr = inl out ->
     Buckets out = [] ->
     answers (listBucketsHandler cl version (newContext req)) w tr
       (null_answer version) [EvCall CallListBuckets]) /\
  (forall out,
     DescribeParameters_reply w (ssm_options (ssm cl)) tr = inl out ->
     Parameters_ out = [] ->
     answers (listParametersHandler cl version (newContext req)) w tr
       (null_answer version) [EvCall CallDescribeParameters]) /\
  (forall quote,
     json_text quote (null_envelope version) =
       "{" +:+ (quote "version" +:+ ":" +:+ quote version +:+ "," +:+
                quote "data" +:+ ":null") +:+ "}") /\
  marshal_any (any_strings nil_slice) <> marshal_any (any_strings (mk_slice [])) /\
  (forall quote,
     json_text quote (marshal_any (any_strings nil_slice)) = "null" /\
     json_text quote (marshal_any (any_strings (mk_slice []))) = "[]").
Proof.
  repeat split; try reflexivity; try discriminate.
  - intros out H Hz. eexists. split.
    + rewrite (listBucketsHandler_names _ _ _ _ _ out [] H);
        [apply JSON_fresh | by rewrite Hz].
    + reflexivity.
  - intros out H Hz. eexists. split.
    + rewrite (listParametersHandler_names _ _ _ _ _ out [] H);
        [apply JSON_fresh | by rewrite Hz].
    + reflexivity.
Qed.

Lemma list_handlers_empty_null_witness :
  ListBuckets_reply world_empty cfg0 [] = inl {| Buckets := [] |} /\
  DescribeParameters_reply world_empty cfg0 [] = inl {| Parameters_ := [] |} /\
  answers (listBucketsHandler clients0 "v1" (newContext (get "/buckets" [])))
    world_empty []
    {| status := 200; written := true; header := [jsonContentType];
       body := [JSONBody (JObject [("version", JString "v1");
                                   ("data", JNull)])] |}
    [EvCall CallListBuckets] /\
  answers (listParametersHandler clients0 "v1"
             (newContext (get "/parameters" [])))
    world_empty []
    {| status := 200; written := true; header := [jsonContentType];
       body := [JSONBody (JObject [("version", JString "v1");
                                   ("data", JNull)])] |}
    [EvCall CallDescribeParameters].
Proof.
  split; [reflexivity|]. split; [reflexivity|].
  split.
  - apply (proj1 (list_handlers_empty_null clients0 "v1" (get "/buckets" [])
                    world_empty []) {| Buckets := [] |});
      reflexivity.
  - apply (proj1 (proj2 (list_handlers_empty_null clients0 "v1"
                           (get "/parameters" []) world_empty []))
             {| Parameters_ := [] |});
      reflexivity.
Defined.

(** C10: no handler checks a pointer of the remote output before
    dereferencing it.  Whenever the remote call succeeds and a bucket's
    [Name], a parameter's [Name], or [Parameter] or [Parameter.Value] is nil,
    the handler panics with the nil-dereference run-time error and returns no
    context: it has made its call and written nothing. *)
Theorem handlers_panic_on_nil cl version req w tr :
  (forall out,
     ListBuckets_reply w (s3_options (s3 cl)) tr = inl out ->
     In None (map s3types.Name (Buckets out)) ->
     panics (listBucketsHandler cl version (newContext req)) w tr
       nil_dereference [EvCall CallListBuckets]) /\
  (forall out,
     DescribeParameters_reply w (ssm_options (ssm cl)) tr = inl out ->
     In None (map ssmtypes.Name (Parameters_ out)) ->
     panics (listParametersHandler cl version (newContext req)) w tr
       nil_dereference [EvCall CallDescribeParameters]) /\
  (forall out,
     GetParameter_reply w (ssm_options (ssm cl)) tr (input_of (newContext req))
       = inl out ->
     Parameter_ out = None \/
       (exists p, Parameter_ out = Some p /\ ssmtypes.Value p = None) ->
     panics (getParameterHandler cl version (newContext req)) w tr
       nil_dereference
       [EvCall (CallGetParameter (input_of (newContext req)))]).
Proof.
  unfold panics. repeat split.
  - intros out H Hn. by apply (listBucketsHandler_nil _ _ _ _ _ out).
  - intros out H Hn. by apply (listParametersHandler_nil _ _ _ _ _ out).
  - intros out H Hn. rewrite getParameterHandler_cases. cbv zeta. rewrite H.
    destruct Hn as [-> | (p & -> & ->)]; reflexivity.
Qed.

Lemma handlers_panic_on_nil_witness :
  panics (listBucketsHandler clients0 "v1" (newContext (get "/buckets" [])))
    world_nil [] nil_dereference [EvCall CallListBuckets] /\
  panics (listParametersHandler clients0 "v1"
            (newContext (get "/parameters" [])))
    world_nil [] nil_dereference [EvCall CallDescribeParameters] /\
  panics (getParameterHandler clients0 "v1"
            (newContext (get "/parameters/:name" (named "foo"))))
    world_nil [] nil_dereference
    [EvCall (CallGetParameter {| Name := Some "foo" |})].
Proof.
  split; [|split].
  - apply (proj1 (handlers_panic_on_nil clients0 "v1" (get "/buckets" [])
                    world_nil [])
             {| Buckets := [{| s3types.Name := Some "a" |};
                            {| s3types.Name := None |}] |});
      [reflexivity | simpl; tauto].
  - apply (proj1 (proj2 (handlers_panic_on_nil clients0 "v1"
                           (get "/parameters" []) world_nil []))
             {| Parameters_ := [{| ssmtypes.Name := None |}] |});
      [reflexivity | simpl; tauto].
  - apply (proj2 (proj2 (handlers_panic_on_nil clients0 "v1"
                           (get "/parameters/:name" (named "foo"))
                           world_nil []))
             {| Parameter_ := Some {| ssmtypes.Value := None |} |});
      [reflexivity | right; eexists; split; reflexivity].
Defined.

(** Behind the Recovery middleware of [gin.Default] the client of such a
    request gets a bare 500. *)
Example recovery_answers_500 :
  ServeHTTP (router clients0 "v1") (get "/buckets" []) world_nil [] =
    (Ok tt,
     [EvRequest (get "/buckets" []);
      EvCall CallListBuckets;
      EvLog ("[Recovery] panic recovered: " +:+ nil_dereference);
      EvResponse (get "/buckets" []) 500 []]).
Proof. reflexivity. Qed.

(* ===================================================================== *)
(** ** The serving phase *)
(* ===================================================================== *)

Lemma listBucketsHandler_outcome cl version req w tr :
  exists r, listBucketsHandler cl version (newContext req) w tr =
              (r, tr ++ [EvCall CallListBuckets]) /\
            business_outcome version r.
Proof.
  destruct (ListBuckets_reply w (s3_options (s3 cl)) tr) as [out|e] eqn:H.
  - destruct (names_or_nil s3types.Name (Buckets out)) as [[names Hn]|Hn].
    + eexists. split.
      * rewrite (listBucketsHandler_names _ _ _ _ _ _ _ H Hn). apply JSON_fresh.
      * right. by eexists.
    + eexists. split; [apply (listBucketsHandler_nil _ _ _ _ _ _ H Hn)|done].
  - eexists. split; [apply (listBucketsHandler_error _ _ _ _ _ _ H)|].
    left. by rewrite (WriteHeader_fresh req 500).
Qed.

Lemma listParametersHandler_outcome cl version req w tr :
  exists r, listParametersHandler cl version (newContext req) w tr =
              (r, tr ++ [EvCall CallDescribeParameters]) /\
            business_outcome version r.
Proof.
  destruct (DescribeParameters_reply w (ssm_options (ssm cl)) tr)
    as [out|e] eqn:H.
  - destruct (names_or_nil ssmtypes.Name (Parameters_ out)) as [[names Hn]|Hn].
    + eexists. split.
      * rewrite (listParametersHandler_names _ _ _ _ _ _ _ H Hn).
        apply JSON_fresh.
      * right. by eexists.
    + eexists. split; [apply (listParametersHandler_nil _ _ _ _ _ _ H Hn)|done].
  - eexists. split; [apply (listParametersHandler_error _ _ _ _ _ _ H)|].
    left. by rewrite (WriteHeader_fresh req 500).
Qed.

Lemma getParameterHandler_outcome cl version req w tr :
  exists r, getParameterHandler cl version (newContext req) w tr =
              (r, tr ++ [EvCall (CallGetParameter (input_of (newContext req)))])
            /\ business_outcome version r.
Proof.
  rewrite getParameterHandler_cases. cbv zeta.
  destruct (GetParameter_reply _ _ _ _) as [[[[[v|]]|]]|e].
  - eexists. split; [apply JSON_fresh|]. right. by eexists.
  - by eexists.
  - by eexists.
  - eexists. split; [reflexivity|].
    left. by rewrite (WriteHeader_fresh req 404).
Qed.

(** A request whose route has handler [h]: the engine adds the request, what
    the handler adds, and the response; after a panic, the Recovery log line
    and a bare 500. *)
Lemma ServeHTTP_route r req h w tr res evs :
  find_route (routes r) req = Some h ->
  h (newContext req) w (tr ++ [EvRequest req]) =
    (res, (tr ++ [EvRequest req]) ++ evs) ->
  match res with
  | Ok c' =>
      ServeHTTP r req w tr =
        (Ok tt, tr ++ [EvRequest req] ++ evs ++
                  [EvResponse req (status (Writer c')) (body (Writer c'))])
  | Panic msg =>
      ServeHTTP r req w tr =
        (Ok tt, tr ++ [EvRequest req] ++ evs ++
                  [EvLog ("[Recovery] panic recovered: " +:+ msg);
                   EvResponse req 500 []])
  | Exit _ | Blocked => True
  end.
Proof.
  intros Hr Hh.
  destruct res as [c'|msg| |]; try exact I;
    unfold ServeHTTP, bind, emit, recover, handleHTTPRequest;
    change (Request_ (newContext req)) with req; rewrite Hr, Hh; simpl;
    f_equal; by rewrite <- !app_assoc.
Qed.

Lemma ServeHTTP_no_route r req w tr :
  find_route (routes r) req = None ->
  ServeHTTP r req w tr =
    (Ok tt, tr ++ [EvRequest req;
                   EvResponse req 404 [PlainBody default404Body]]).
Proof.
  intros Hr.
  unfold ServeHTTP, bind, emit, recover, handleHTTPRequest.
  change (Request_ (newContext req)) with req. rewrite Hr. simpl.
  by rewrite <- app_assoc.
Qed.

Lemma find_route_router cl version req :
  find_route (routes (router cl version)) req = None \/
  (FullPath req = "/buckets" /\
   find_route (routes (router cl version)) req =
     Some (listBucketsHandler cl version)) \/
  (FullPath req = "/parameters" /\
   find_route (routes (router cl version)) req =
     Some (listParametersHandler cl version)) \/
  (FullPath req = "/parameters/:name" /\
   find_route (routes (router cl version)) req =
     Some (getParameterHandler cl version)) \/
  (FullPath req = "/livez" /\
   find_route (routes (router cl version)) req = Some livenessHandler).
Proof.
  unfold router, GET, gin_Default. simpl.
  repeat case_decide; naive_solver.
Qed.

(** Whatever the request and whatever AWS answers, the engine of [main]
    returns to its loop, and what it added to the trace are serving events. *)
Lemma ServeHTTP_served cl version req w tr :
  exists evs,
    ServeHTTP (router cl version) req w tr = (Ok tt, tr ++ evs) /\
    Forall (served version) evs.
Proof.
  assert (Hbusiness : forall h c,
    find_route (routes (router cl version)) req = Some h ->
    (exists r, h (newContext req) w (tr ++ [EvRequest req]) =
                 (r, (tr ++ [EvRequest req]) ++ [EvCall c]) /\
               business_outcome version r) ->
    c <> CallGetCallerIdentity ->
    exists evs,
      ServeHTTP (router cl version) req w tr = (Ok tt, tr ++ evs) /\
      Forall (served version) evs).
  { intros h c Hr (r & Hh & Ho) Hc.
    pose proof (ServeHTTP_route _ _ _ _ _ _ _ Hr Hh) as Hs.
    destruct r as [c'|msg| |]; try contradiction; eexists; (split; [exact Hs|]).
    - repeat constructor; [exact Hc|]. simpl. intros _ Hcode.
      destruct Ho as [[Hne _]|(d & _ & Hb)]; [contradiction|]. by exists d.
    - repeat constructor; [exact Hc|]. simpl. intros _ Hcode. discriminate. }
  destruct (find_route_router cl version req)
    as [Hr|[[Hp Hr]|[[Hp Hr]|[[Hp Hr]|[Hp Hr]]]]].
  - eexists. split; [apply (ServeHTTP_no_route _ _ _ _ Hr)|].
    repeat constructor. simpl. intros _ Hcode. discriminate.
  - apply (Hbusiness _ CallListBuckets Hr); [|discriminate].
    apply listBucketsHandler_outcome.
  - apply (Hbusiness _ CallDescribeParameters Hr); [|discriminate].
    apply listParametersHandler_outcome.
  - apply (Hbusiness _ (CallGetParameter (input_of (newContext req))) Hr);
      [|discriminate].
    apply getParameterHandler_outcome.
  - assert (Hh : livenessHandler (newContext req) w (tr ++ [EvRequest req]) =
                   (Ok (newContext req), (tr ++ [EvRequest req]) ++ [])).
    { by rewrite app_nil_r. }
    eexists. split; [apply (ServeHTTP_route _ _ _ _ _ _ _ Hr Hh)|].
    repeat constructor. simpl. intros [Hb|[Hb|Hb]] _;
      rewrite Hp in Hb; discriminate.
Qed.

Lemma serve_served cl version reqs :
  forall w tr,
    exists evs,
      serve (router cl version) reqs w tr = (Ok tt, tr ++ evs) /\
      Forall (served version) evs.
Proof.
  induction reqs as [|req reqs IH]; intros w tr.
  - exists []. split; [|constructor]. unfold serve. simpl. unfold ret.
    by rewrite app_nil_r.
  - destruct (ServeHTTP_served cl version req w tr) as (evs1 & H1 & F1).
    destruct (IH w (tr ++ evs1)) as (evs2 & H2 & F2).
    exists (evs1 ++ evs2). split; [|by apply Forall_app].
    unfold serve. simpl.
    run_ok H1. fold (serve (router cl version) reqs).
    by rewrite H2, app_assoc.
Qed.

(* ===================================================================== *)
(** ** The whole run *)
(* ===================================================================== *)

(** [main], with its binds run as far as the oracles allow. *)
Lemma run_eq w :
  run w =
    match environ w !! "VERSION" with
    | None =>
        (Exit 1, [EvLookupEnv "VERSION";
                  EvLog "required key VERSION missing value"])
    | Some v =>
        match LoadDefaultConfig_result w with
        | inr e =>
            (Panic ("AWS init failed: " +:+ e),
             [EvLookupEnv "VERSION"; EvLoadDefaultConfig])
        | inl cfg =>
            match GetCallerIdentity_reply w cfg with
            | Some e =>
                (Panic ("AWS init failed: " +:+ e),
                 [EvLookupEnv "VERSION"; EvLoadDefaultConfig;
                  EvCall CallGetCallerIdentity])
            | None =>
                match Listen_result w ":8081" with
                | Some e =>
                    (Exit 1, boot ++ [EvLog ("router error: " +:+ e)])
                | None =>
                    bind (serve (router (clients_of cfg) v) (incoming w))
                      (fun _ => block) w boot
                end
            end
        end
    end.
Proof.
  unfold run, main, envconfig_Process, os_LookupEnv, newAWSClients,
    config_LoadDefaultConfig, GetCallerIdentity, log_Fatal, log_Printf, Run,
    serve, bind, emit, ask, ret, panic, os_Exit, block.
  simpl.
  destruct (environ w !! "VERSION") as [v|]; simpl; [|reflexivity].
  destruct (LoadDefaultConfig_result w) as [cfg|e]; simpl; [|reflexivity].
  destruct (GetCallerIdentity_reply w cfg) as [e|]; simpl; [reflexivity|].
  destruct (Listen_result w ":8081") as [e|]; simpl; [reflexivity|].
  unfold router, clients_of, boot. simpl.
  destruct (range _ _ _ _ _) as [[[]|msg|code|] tr']; reflexivity.
Qed.

(** The four ways a run can go. *)
Lemma run_cases w :
  (environ w !! "VERSION" = None /\
   run w = (Exit 1, [EvLookupEnv "VERSION";
                     EvLog "required key VERSION missing value"])) \/
  (exists v e,
     environ w !! "VERSION" = Some v /\
     LoadDefaultConfig_result w = inr e /\
     run w = (Panic ("AWS init failed: " +:+ e),
              [EvLookupEnv "VERSION"; EvLoadDefaultConfig])) \/
  (exists v cfg e,
     environ w !! "VERSION" = Some v /\
     LoadDefaultConfig_result w = inl cfg /\
     GetCallerIdentity_reply w cfg = Some e /\
     run w = (Panic ("AWS init failed: " +:+ e),
              [EvLookupEnv "VERSION"; EvLoadDefaultConfig;
               EvCall CallGetCallerIdentity])) \/
  (exists v cfg res evs,
     environ w !! "VERSION" = Some v /\
     LoadDefaultConfig_result w = inl cfg /\
     GetCallerIdentity_reply w cfg = None /\
     run w = (res, boot ++ evs) /\
     Forall (served v) evs /\
     match Listen_result w ":8081" with
     | Some e => res = Exit 1 /\ evs = [EvLog ("router error: " +:+ e)]
     | None => res = Blocked
     end).
Proof.
  rewrite run_eq.
  destruct (environ w !! "VERSION") as [v|]; [|by left].
  right.
  destruct (LoadDefaultConfig_result w) as [cfg|e]; [|left; by exists v, e].
  right.
  destruct (GetCallerIdentity_reply w cfg) as [e|] eqn:Hg;
    [left; by exists v, cfg, e|].
  right. exists v, cfg. rewrite Hg.
  destruct (Listen_result w ":8081") as [e|].
  - eexists _, [_]. repeat split; try done. by repeat constructor.
  - destruct (serve_served (clients_of cfg) v (incoming w) w boot)
      as (evs & Hs & Fs).
    exists Blocked, evs. repeat split; try done.
    unfold bind. by rewrite Hs.
Qed.

(** An event that the serving phase cannot produce sits in the start-up
    prefix. *)
Lemma lookup_boot v evs (i : nat) e :
  Forall (served v) evs ->
  (boot ++ evs) !! i = Some e ->
  ~ served v e ->
  boot !! i = Some e.
Proof.
  intros F H Hn. apply lookup_app_Some in H as [H|[_ H]]; [exact H|].
  destruct Hn. apply (Forall_lookup_1 _ _ _ _ F H).
Qed.

(** Case analysis on the index of a lookup in a list written out. *)
Ltac index H :=
  repeat match type of H with
         | (_ :: _) !! ?i = Some _ =>
             destruct i; simpl in H; try discriminate H
         | [] !! _ = Some _ => discriminate H
         end.

Lemma startup_order_boot v evs :
  Forall (served v) evs ->
  strictly_before (EvLookupEnv "VERSION") (EvCall CallGetCallerIdentity)
    (boot ++ evs) /\
  forall addr,
    strictly_before (EvCall CallGetCallerIdentity) (EvListen addr)
      (boot ++ evs).
Proof.
  intros F.
  assert (Hgci : ~ served v (EvCall CallGetCallerIdentity)) by (intros H; by apply H).
  assert (Henv : ~ served v (EvLookupEnv "VERSION")) by (intros H; exact H).
  assert (Hlis : forall addr, ~ served v (EvListen addr)) by (intros addr H; exact H).
  split; [|intros addr]; split.
  - intros i j Hi Hj.
    apply (lookup_boot v) in Hi; [|done..]. apply (lookup_boot v) in Hj; [|done..].
    unfold boot in Hi, Hj. index Hi. index Hj. lia.
  - intros j Hj. apply (lookup_boot v) in Hj; [|done..].
    unfold boot in Hj. index Hj. exists 0. split; [lia|reflexivity].
  - intros i j Hi Hj.
    apply (lookup_boot v) in Hi; [|done..]. apply (lookup_boot v) in Hj; [|done..].
    unfold boot in Hi, Hj. index Hi. index Hj. lia.
  - intros j Hj. apply (lookup_boot v) in Hj; [|done..].
    unfold boot in Hj. index Hj. exists 2. split; [lia|reflexivity].
Qed.

(** How far [main] gets: [r.Run] is called, that is the bind is attempted,
    exactly when the version variable is set, [config.LoadDefaultConfig]
    returns a configuration, and [GetCallerIdentity] on that configuration
    returns no error.  Whether the bind succeeds is another matter. *)
Lemma startup_iff w :
  reaches_Run w <->
  version_present w /\
  exists cfg,
    LoadDefaultConfig_result w = inl cfg /\
    GetCallerIdentity_reply w cfg = None.
Proof.
  unfold reaches_Run, version_present, trace_of.
  destruct (run_cases w)
    as [[Hv Hr]|[(v & e & Hv & Hl & Hr)|[(v & cfg & e & Hv & Hl & Hg & Hr)
       |(v & cfg & res & evs & Hv & Hl & Hg & Hr & _)]]];
    rewrite Hr; simpl; split.
  - intros [addr [H|[H|[]]]]; discriminate.
  - intros [[v Hv'] _]. congruence.
  - intros [addr [H|[H|[]]]]; discriminate.
  - intros [_ (cfg & Hl' & _)]. congruence.
  - intros [addr [H|[H|[H|[]]]]]; discriminate.
  - intros [_ (cfg' & Hl' & Hg')]. congruence.
  - intros _. split; [by exists v | by exists cfg].
  - intros _. exists ":8081". tauto.
Qed.

(** C3, as the claim states it, fails: the version variable is set, the
    configuration loads, the identity check is made and passes, and still the
    process never serves: the port is taken, [r.Run] returns the error and
    [main] exits with status 1 without reading a request.  The bind is a
    further condition, behind the guard on the result of [r.Run]. *)
Lemma startup_counterexample :
  version_present world_portbusy /\
  LoadDefaultConfig_result world_portbusy = inl cfg0 /\
  GetCallerIdentity_reply world_portbusy cfg0 = None /\
  trace_of world_portbusy !! 2 = Some (EvCall CallGetCallerIdentity) /\
  run world_portbusy =
    (Exit 1,
     boot ++ [EvLog "router error: listen tcp :8081: bind: address already in use"]) /\
  requested (trace_of world_portbusy) = [] /\
  ~ (fst (run world_portbusy) = Blocked <->
     version_present world_portbusy /\
     exists cfg,
       LoadDefaultConfig_result world_portbusy = inl cfg /\
       GetCallerIdentity_reply world_portbusy cfg = None).
Proof.
  assert (Hv : version_present world_portbusy) by (by exists "v1").
  split; [exact Hv|]. do 5 (split; [reflexivity|]).
  intros [_ H].
  assert (Hb : fst (run world_portbusy) = Blocked).
  { apply H. split; [exact Hv|]. by exists cfg0. }
  vm_compute in Hb. discriminate Hb.
Qed.

(** C3, amended: [main] ends up serving (it has bound the port and stays in
    [r.Run], answering requests) exactly when the version variable is set,
    the identity check is made and passes, which takes
    [config.LoadDefaultConfig] to return a configuration first, and the
    address [:8081] can be bound.  When these hold nothing else makes [main]
    stop; when one fails the process ends without serving. *)
Lemma serving_iff w :
  fst (run w) = Blocked <->
  (version_present w /\
   exists cfg,
     LoadDefaultConfig_result w = inl cfg /\
     GetCallerIdentity_reply w cfg = None) /\
  Listen_result w ":8081" = None.
Proof.
  unfold version_present.
  destruct (run_cases w)
    as [[Hv Hr]|[(v & e & Hv & Hl & Hr)|[(v & cfg & e & Hv & Hl & Hg & Hr)
       |(v & cfg & res & evs & Hv & Hl & Hg & Hr & _ & Hb)]]];
    rewrite Hr; simpl; split; try discriminate.
  - intros [[[v Hv'] _] _]. congruence.
  - intros [[_ (cfg & Hl' & _)] _]. congruence.
  - intros [[_ (cfg' & Hl' & Hg')] _]. congruence.
  - intros ->. destruct (Listen_result w ":8081"); [by destruct Hb|].
    repeat split; [by exists v | by exists cfg].
  - intros [_ Hn]. by rewrite Hn in Hb.
Qed.

(** C4: every 200 the process ever sends on a business route ([/buckets],
    [/parameters], [/parameters/:name]) has one envelope as its body, and the
    [version] field of that envelope is the value of [VERSION] in the
    environment the process was started in: the same string for every
    request, whatever AWS answered and whatever was served before. *)
Theorem version_in_every_envelope w req code b :
  In (EvResponse req code b) (trace_of w) ->
  business req ->
  code = 200%Z ->
  exists v d,
    environ w !! "VERSION" = Some v /\
    b = [JSONBody (envelope_json v d)].
Proof.
  unfold trace_of.
  destruct (run_cases w)
    as [[Hv Hr]|[(v & e & Hv & Hl & Hr)|[(v & cfg & e & Hv & Hl & Hg & Hr)
       |(v & cfg & res & evs & Hv & Hl & Hg & Hr & F & _)]]];
    rewrite Hr; simpl; intros H Hb Hc.
  - by destruct H as [H|[H|[]]].
  - by destruct H as [H|[H|[]]].
  - by destruct H as [H|[H|[H|[]]]].
  - destruct H as [H|[H|[H|[H|[H|H]]]]]; try discriminate.
    destruct (proj1 (List.Forall_forall _ _) F _ H Hb Hc) as [d Hd].
    by exists v, d.
Qed.

Lemma version_in_every_envelope_witness :
  In (EvResponse (get "/parameters/:name" (named "foo")) 200
        [JSONBody (envelope_json "v1" (JString "bar"))])
     (trace_of world0) /\
  exists v d,
    environ world0 !! "VERSION" = Some v /\
    [JSONBody (envelope_json "v1" (JString "bar"))] =
      [JSONBody (envelope_json v d)].
Proof.
  assert (H : In (EvResponse (get "/parameters/:name" (named "foo")) 200
                    [JSONBody (envelope_json "v1" (JString "bar"))])
                 (trace_of world0)).
  { vm_compute. do 10 right. left. reflexivity. }
  split; [exact H|].
  apply (version_in_every_envelope world0
           (get "/parameters/:name" (named "foo")) 200
           [JSONBody (envelope_json "v1" (JString "bar"))] H).
  - right. right. reflexivity.
  - reflexivity.
Defined.

(** C8: without the version variable the run is: look the variable up, log
    the error, exit with status 1; no configuration is loaded, no call made,
    no port bound, no request served.  And in every run the look-up of the
    version comes strictly before the identity check, which comes strictly
    before the bind: neither later step occurs without the earlier one. *)
Theorem missing_version_is_fatal_first w :
  (environ w !! "VERSION" = None ->
   run w = (Exit 1, [EvLookupEnv "VERSION";
                     EvLog "required key VERSION missing value"])) /\
  strictly_before (EvLookupEnv "VERSION") (EvCall CallGetCallerIdentity)
    (trace_of w) /\
  (forall addr,
     strictly_before (EvCall CallGetCallerIdentity) (EvListen addr)
       (trace_of w)).
Proof.
  split.
  { intros Hv. rewrite run_eq. by rewrite Hv. }
  unfold trace_of.
  destruct (run_cases w)
    as [[Hv Hr]|[(v & e & Hv & Hl & Hr)|[(v & cfg & e & Hv & Hl & Hg & Hr)
       |(v & cfg & res & evs & Hv & Hl & Hg & Hr & F & _)]]];
    rewrite Hr; simpl snd; [| | |by apply (startup_order_boot v)];
    (split; [|intros addr]); split.
  all: try (intros i j Hi Hj; index Hi; index Hj; lia).
  all: try (intros j Hj; index Hj).
  exists 0. split; [lia|reflexivity].
Qed.

Lemma missing_version_is_fatal_first_witness :
  environ world_noversion !! "VERSION" = None /\
  run world_noversion =
    (Exit 1, [EvLookupEnv "VERSION";
              EvLog "required key VERSION missing value"]).
Proof.
  split; [reflexivity|].
  apply (proj1 (missing_version_is_fatal_first world_noversion)).
  reflexivity.
Defined.

(* ===================================================================== *)
(** ** newAWSClients on its own *)
(* ===================================================================== *)

Lemma newAWSClients_eq ctx w tr :
  newAWSClients ctx w tr =
    match LoadDefaultConfig_result w with
    | inr e => (Ok (inr e), tr ++ [EvLoadDefaultConfig])
    | inl cfg =>
        match GetCallerIdentity_reply w cfg with
        | Some e =>
            (Ok (inr e),
             tr ++ [EvLoadDefaultConfig; EvCall CallGetCallerIdentity])
        | None =>
            (Ok (inl (clients_of cfg)),
             tr ++ [EvLoadDefaultConfig; EvCall CallGetCallerIdentity])
        end
    end.
Proof.
  unfold newAWSClients, config_LoadDefaultConfig, GetCallerIdentity,
    bind, emit, ask, ret.
  simpl.
  destruct (LoadDefaultConfig_result w) as [cfg|e]; simpl; [|reflexivity].
  rewrite <- app_assoc. simpl.
  destruct (GetCallerIdentity_reply w cfg); reflexivity.
Qed.

(** X1: [newAWSClients] hands out clients exactly when the configuration
    loads and the identity check on it passes; both clients are then made
    from that very configuration, and the function has loaded the
    configuration and made the one identity call, nothing else. *)
Theorem newAWSClients_clients ctx w tr cl tr' :
  newAWSClients ctx w tr = (Ok (inl cl), tr') <->
  exists cfg,
    LoadDefaultConfig_result w = inl cfg /\
    GetCallerIdentity_reply w cfg = None /\
    s3 cl = s3_NewFromConfig cfg /\
    ssm cl = ssm_NewFromConfig cfg /\
    tr' = tr ++ [EvLoadDefaultConfig; EvCall CallGetCallerIdentity].
Proof.
  rewrite newAWSClients_eq. split.
  - destruct (LoadDefaultConfig_result w) as [cfg|e]; [|discriminate].
    destruct (GetCallerIdentity_reply w cfg) as [e|] eqn:Hg; [discriminate|].
    intros [= <- <-]. by exists cfg.
  - intros (cfg & -> & -> & Hs3 & Hssm & ->).
    destruct cl as [a b]. simpl in Hs3, Hssm. by subst.
Qed.

(** X2: [newAWSClients] returns an error in two cases only, and returns it
    as it got it: the error of [LoadDefaultConfig], and then no call has been
    made, or the error of [GetCallerIdentity].  It never panics and never
    exits. *)
Theorem newAWSClients_errors ctx w tr :
  (forall e tr',
     newAWSClients ctx w tr = (Ok (inr e), tr') <->
     (LoadDefaultConfig_result w = inr e /\
      tr' = tr ++ [EvLoadDefaultConfig]) \/
     (exists cfg,
        LoadDefaultConfig_result w = inl cfg /\
        GetCallerIdentity_reply w cfg = Some e /\
        tr' = tr ++ [EvLoadDefaultConfig; EvCall CallGetCallerIdentity])) /\
  (exists r tr', newAWSClients ctx w tr = (Ok r, tr')).
Proof.
  rewrite newAWSClients_eq. split.
  - intros e tr'. split.
    + destruct (LoadDefaultConfig_result w) as [cfg|e0].
      * destruct (GetCallerIdentity_reply w cfg) as [e0|] eqn:Hg;
          [|discriminate].
        intros [= <- <-]. right. by exists cfg.
      * intros [= <- <-]. by left.
    + intros [[-> ->]|(cfg & -> & -> & ->)]; reflexivity.
  - destruct (LoadDefaultConfig_result w) as [cfg|e]; [|by eexists _, _].
    destruct (GetCallerIdentity_reply w cfg); by eexists _, _.
Qed.

(* ===================================================================== *)
(** ** The ends of main other than serving *)
(* ===================================================================== *)

(** X3: with the version set, a failure of [newAWSClients], whichever of
    its two errors, ends the process in a panic whose message is
    [AWS init failed: ] followed by the error text.  By then it has looked up
    the version, loaded the configuration and at most made the identity call:
    no port bound, no request read, no S3 or SSM call. *)
Theorem aws_init_failure_panics w v e :
  environ w !! "VERSION" = Some v ->
  LoadDefaultConfig_result w = inr e \/
    (exists cfg, LoadDefaultConfig_result w = inl cfg /\
                 GetCallerIdentity_reply w cfg = Some e) ->
  fst (run w) = Panic ("AWS init failed: " +:+ e) /\
  forall ev, In ev (trace_of w) ->
    ev = EvLookupEnv "VERSION" \/ ev = EvLoadDefaultConfig \/
    ev = EvCall CallGetCallerIdentity.
Proof.
  intros Hv H. unfold trace_of. rewrite run_eq, Hv.
  destruct H as [->|(cfg & -> & ->)]; simpl; (split; [reflexivity|]);
    intros ev Hin; repeat (destruct Hin as [<-|Hin]; [auto|]);
    destruct Hin.
Qed.

Lemma aws_init_failure_panics_witness :
  fst (run world_badconfig) =
    Panic "AWS init failed: failed to load shared config" /\
  fst (run world_badcreds) = Panic "AWS init failed: ExpiredToken" /\
  ~ In (EvListen ":8081") (trace_of world_badcreds).
Proof.
  split; [|split].
  - apply (aws_init_failure_panics world_badconfig "v1"
             "failed to load shared config"); [reflexivity|].
    left. reflexivity.
  - apply (aws_init_failure_panics world_badcreds "v1" "ExpiredToken");
      [reflexivity|].
    right. exists cfg0. split; reflexivity.
  - intros Hin.
    destruct (aws_init_failure_panics world_badcreds "v1" "ExpiredToken")
      as [_ H]; [reflexivity | right; exists cfg0; split; reflexivity |].
    destruct (H _ Hin) as [E|[E|E]]; discriminate E.
Defined.

(** X4: when start-up has passed both checks and the port cannot be bound,
    [r.Run] returns the error, the process logs [router error: ] followed by
    the error text and exits with status 1; requests that were waiting are
    never read. *)
Theorem bind_failure_is_fatal w v cfg e :
  environ w !! "VERSION" = Some v ->
  LoadDefaultConfig_result w = inl cfg ->
  GetCallerIdentity_reply w cfg = None ->
  Listen_result w ":8081" = Some e ->
  run w = (Exit 1, boot ++ [EvLog ("router error: " +:+ e)]) /\
  requested (trace_of w) = [].
Proof.
  intros Hv Hl Hg Hb. unfold trace_of. rewrite run_eq, Hv, Hl, Hg, Hb.
  split; reflexivity.
Qed.

Lemma bind_failure_is_fatal_witness :
  incoming world_portbusy = [get "/livez" []; get "/buckets" []] /\
  run world_portbusy =
    (Exit 1,
     boot ++ [EvLog ("router error: " +:+
                     "listen tcp :8081: bind: address already in use")]) /\
  requested (trace_of world_portbusy) = [].
Proof.
  split; [reflexivity|].
  apply (bind_failure_is_fatal world_portbusy "v1" cfg0); reflexivity.
Defined.

(** X5: the process binds at most once, as its fifth observable step, and
    only the address [:8081]; nothing in the environment changes that. *)
Theorem listens_once_on_8081 w (i : nat) addr :
  trace_of w !! i = Some (EvListen addr) ->
  i = 4 /\ addr = ":8081".
Proof.
  unfold trace_of.
  destruct (run_cases w)
    as [[Hv Hr]|[(v & e & Hv & Hl & Hr)|[(v & cfg & e & Hv & Hl & Hg & Hr)
       |(v & cfg & res & evs & Hv & Hl & Hg & Hr & F & _)]]];
    rewrite Hr; simpl snd; intros H.
  - index H.
  - index H.
  - index H.
  - apply (lookup_boot v) in H; [|exact F|intros []].
    unfold boot in H. index H. by injection H as <-.
Qed.

Lemma listens_once_on_8081_witness :
  trace_of world0 !! 4 = Some (EvListen ":8081") /\
  (4 = 4 /\ ":8081" = ":8081").
Proof.
  assert (H : trace_of world0 !! 4 = Some (EvListen ":8081")) by reflexivity.
  split; [exact H|]. apply (listens_once_on_8081 world0 4 ":8081" H).
Defined.

(** X6: [GetCallerIdentity] is called at most once in the life of the
    process, as its third observable step; no request makes the process check
    its credentials again. *)
Theorem identity_checked_once w (i : nat) :
  trace_of w !! i = Some (EvCall CallGetCallerIdentity) ->
  i = 2.
Proof.
  unfold trace_of.
  destruct (run_cases w)
    as [[Hv Hr]|[(v & e & Hv & Hl & Hr)|[(v & cfg & e & Hv & Hl & Hg & Hr)
       |(v & cfg & res & evs & Hv & Hl & Hg & Hr & F & _)]]];
    rewrite Hr; simpl snd; intros H.
  - index H.
  - index H.
  - index H. reflexivity.
  - apply (lookup_boot v) in H; [|exact F|intros Hs; by apply Hs].
    unfold boot in H. index H. reflexivity.
Qed.

Lemma identity_checked_once_witness :
  trace_of world_rough !! 2 = Some (EvCall CallGetCallerIdentity) /\ 2 = 2.
Proof.
  assert (H : trace_of world_rough !! 2 = Some (EvCall CallGetCallerIdentity))
    by reflexivity.
  split; [exact H|]. apply (identity_checked_once world_rough 2 H).
Defined.

(* ===================================================================== *)
(** ** One request, exactly *)
(* ===================================================================== *)

Lemma appended_names (names : list string) :
  marshal_any (any_strings (appended nil_slice names)) = names_json names.
Proof.
  pose proof (appended_nil_slice names) as H.
  destruct names as [|n names]; [reflexivity|].
  change (appended nil_slice (n :: names))
    with (appended (append nil_slice n) names) in *.
  destruct (appended (append nil_slice n) names) as [|l] eqn:E.
  - discriminate H.
  - simpl in H. subst l. reflexivity.
Qed.

Lemma listBucketsHandler_ends cl version req w tr :
  exists r, listBucketsHandler cl version (newContext req) w tr =
              (r, tr ++ [EvCall CallListBuckets]) /\
            handler_ends version 500 r.
Proof.
  destruct (ListBuckets_reply w (s3_options (s3 cl)) tr) as [out|e] eqn:H.
  - destruct (names_or_nil s3types.Name (Buckets out)) as [[names Hn]|Hn].
    + eexists. split.
      * rewrite (listBucketsHandler_names _ _ _ _ _ _ _ H Hn). apply JSON_fresh.
      * by eapply ends_envelope.
    + eexists. split; [apply (listBucketsHandler_nil _ _ _ _ _ _ H Hn)|].
      constructor.
  - eexists. split; [apply (listBucketsHandler_error _ _ _ _ _ _ H)|].
    apply ends_error. by apply (WriteHeader_fresh req 500).
Qed.

Lemma listParametersHandler_ends cl version req w tr :
  exists r, listParametersHandler cl version (newContext req) w tr =
              (r, tr ++ [EvCall CallDescribeParameters]) /\
            handler_ends version 500 r.
Proof.
  destruct (DescribeParameters_reply w (ssm_options (ssm cl)) tr)
    as [out|e] eqn:H.
  - destruct (names_or_nil ssmtypes.Name (Parameters_ out)) as [[names Hn]|Hn].
    + eexists. split.
      * rewrite (listParametersHandler_names _ _ _ _ _ _ _ H Hn).
        apply JSON_fresh.
      * by eapply ends_envelope.
    + eexists. split; [apply (listParametersHandler_nil _ _ _ _ _ _ H Hn)|].
      constructor.
  - eexists. split; [apply (listParametersHandler_error _ _ _ _ _ _ H)|].
    apply ends_error. by apply (WriteHeader_fresh req 500).
Qed.

Lemma getParameterHandler_ends cl version req w tr :
  exists r, getParameterHandler cl version (newContext req) w tr =
              (r, tr ++ [EvCall (CallGetParameter
                                   {| Name := Some (ByName (PathParams req) "name") |})])
            /\ handler_ends version 404 r.
Proof.
  rewrite getParameterHandler_cases. cbv zeta.
  change (input_of (newContext req))
    with {| Name := Some (ByName (PathParams req) "name") |}.
  destruct (GetParameter_reply _ _ _ _) as [[[[[v|]]|]]|e].
  - eexists. split; [apply JSON_fresh|]. by eapply ends_envelope.
  - eexists. split; [reflexivity|constructor].
  - eexists. split; [reflexivity|constructor].
  - eexists. split; [reflexivity|].
    apply ends_error. by apply (WriteHeader_fresh req 404).
Qed.

(** The route table of [main], as a decision on method and pattern. *)
Lemma find_route_router_eq cl version req :
  find_route (routes (router cl version)) req =
    if decide (Method req = "GET") then
      if decide (FullPath req = "/buckets") then
        Some (listBucketsHandler cl version)
      else if decide (FullPath req = "/parameters") then
        Some (listParametersHandler cl version)
      else if decide (FullPath req = "/parameters/:name") then
        Some (getParameterHandler cl version)
      else if decide (FullPath req = "/livez") then Some livenessHandler
      else None
    else None.
Proof.
  unfold router, GET, gin_Default. simpl.
  repeat case_decide; congruence.
Qed.

(** A routed business request, given how its handler ends. *)
Lemma ServeHTTP_business r req h c version w tr :
  find_route (routes r) req = Some h ->
  call_of req = Some c ->
  (exists res,
     h (newContext req) w (tr ++ [EvRequest req]) =
       (res, (tr ++ [EvRequest req]) ++ [EvCall c]) /\
     handler_ends version (error_status req) res) ->
  exists evs,
    ServeHTTP r req w tr = (Ok tt, tr ++ evs) /\
    request_events version req evs.
Proof.
  intros Hr Hc (res & Hh & He).
  pose proof (ServeHTTP_route _ _ _ _ _ _ _ Hr Hh) as Hs.
  destruct He as [c' d Hw|c' Hw|]; eexists; (split; [exact Hs|]);
    simpl; try rewrite Hw; simpl.
  - by apply (served_envelope version req c (marshal_any d)).
  - by apply served_error.
  - by apply served_panic.
Qed.

Lemma ServeHTTP_events cl version req w tr :
  exists evs,
    ServeHTTP (router cl version) req w tr = (Ok tt, tr ++ evs) /\
    request_events version req evs.
Proof.
  pose proof (find_route_router_eq cl version req) as Hr.
  assert (Hc : call_of req = call_of req) by reflexivity.
  unfold call_of at 2 in Hc. unfold error_status.
  destruct (decide (Method req = "GET")) as [Hm|Hm].
  - destruct (decide (FullPath req = "/buckets")) as [Hp|Hp1].
    { apply (ServeHTTP_business _ _ _ _ _ _ _ Hr Hc). unfold error_status.
      rewrite decide_False by (rewrite Hp; discriminate).
      apply listBucketsHandler_ends. }
    destruct (decide (FullPath req = "/parameters")) as [Hp|Hp2].
    { apply (ServeHTTP_business _ _ _ _ _ _ _ Hr Hc). unfold error_status.
      rewrite decide_False by (rewrite Hp; discriminate).
      apply listParametersHandler_ends. }
    destruct (decide (FullPath req = "/parameters/:name")) as [Hp|Hp3].
    { apply (ServeHTTP_business _ _ _ _ _ _ _ Hr Hc). unfold error_status.
      rewrite decide_True by exact Hp.
      apply getParameterHandler_ends. }
    destruct (decide (FullPath req = "/livez")) as [Hp|Hp4].
    + assert (Hh : livenessHandler (newContext req) w (tr ++ [EvRequest req]) =
                     (Ok (newContext req), (tr ++ [EvRequest req]) ++ [])).
      { by rewrite app_nil_r. }
      eexists. split; [apply (ServeHTTP_route _ _ _ _ _ _ _ Hr Hh)|].
      by apply served_livez.
    + eexists. split; [apply (ServeHTTP_no_route _ _ _ _ Hr)|].
      apply served_no_route; [exact Hc|]. by intros [_ Hl].
  - eexists. split; [apply (ServeHTTP_no_route _ _ _ _ Hr)|].
    apply served_no_route; [exact Hc|]. by intros [Hg _].
Qed.

Lemma serve_events cl version reqs :
  forall w tr,
    exists evs,
      serve (router cl version) reqs w tr = (Ok tt, tr ++ evs) /\
      serving_events version reqs evs.
Proof.
  induction reqs as [|req reqs IH]; intros w tr.
  - exists []. split; [|constructor]. unfold serve. simpl. unfold ret.
    by rewrite app_nil_r.
  - destruct (ServeHTTP_events cl version req w tr) as (evs1 & H1 & E1).
    destruct (IH w (tr ++ evs1)) as (evs2 & H2 & E2).
    exists (evs1 ++ evs2). split; [|by constructor].
    unfold serve. simpl.
    run_ok H1. fold (serve (router cl version) reqs).
    by rewrite H2, app_assoc.
Qed.

(** A run that serves: the start-up prefix, then the events of the incoming
    requests. *)
Lemma run_serving w v cfg :
  environ w !! "VERSION" = Some v ->
  LoadDefaultConfig_result w = inl cfg ->
  GetCallerIdentity_reply w cfg = None ->
  Listen_result w ":8081" = None ->
  exists evs,
    run w = (Blocked, boot ++ evs) /\
    serving_events v (incoming w) evs.
Proof.
  intros Hv Hl Hg Hb. rewrite run_eq, Hv, Hl, Hg, Hb.
  destruct (serve_events (clients_of cfg) v (incoming w) w boot)
    as (evs & Hs & E).
  exists evs. split; [|exact E]. unfold bind. by rewrite Hs.
Qed.

(** A run ends [Blocked] only by serving. *)
Lemma blocked_serving w :
  fst (run w) = Blocked ->
  exists v evs,
    environ w !! "VERSION" = Some v /\
    run w = (Blocked, boot ++ evs) /\
    serving_events v (incoming w) evs.
Proof.
  intros H.
  destruct (environ w !! "VERSION") as [v|] eqn:Hv;
    [|rewrite run_eq, Hv in H; discriminate].
  destruct (LoadDefaultConfig_result w) as [cfg|e] eqn:Hl;
    [|rewrite run_eq, Hv, Hl in H; discriminate].
  destruct (GetCallerIdentity_reply w cfg) as [e|] eqn:Hg;
    [rewrite run_eq, Hv, Hl, Hg in H; discriminate|].
  destruct (Listen_result w ":8081") as [e|] eqn:Hb;
    [rewrite run_eq, Hv, Hl, Hg, Hb in H; discriminate|].
  destruct (run_serving w v cfg Hv Hl Hg Hb) as (evs & Hr & E).
  by exists v, evs.
Qed.

(** The responses among the events of a request answer that request. *)
Lemma response_request version req0 evs req code b :
  request_events version req0 evs ->
  In (EvResponse req code b) evs ->
  req = req0.
Proof. intros E Hin. destruct E; simpl in Hin; intuition congruence. Qed.

(** A response on the trace belongs to a run that serves, and to the events
    of one of its requests. *)
Lemma response_in_serving version reqs evs :
  serving_events version reqs evs ->
  forall req code b,
    In (EvResponse req code b) evs ->
    exists evs1,
      request_events version req evs1 /\ In (EvResponse req code b) evs1.
Proof.
  induction 1 as [|req0 reqs evs evs' E _ IH]; intros req code b Hin.
  - destruct Hin.
  - apply in_app_or in Hin as [Hin|Hin]; [|by apply IH].
    pose proof (response_request _ _ _ _ _ _ E Hin) as ->.
    exists evs. split; assumption.
Qed.

Lemma response_of_run w req code b :
  In (EvResponse req code b) (trace_of w) ->
  exists v evs1,
    environ w !! "VERSION" = Some v /\
    request_events v req evs1 /\ In (EvResponse req code b) evs1.
Proof.
  unfold trace_of. intros H.
  destruct (environ w !! "VERSION") as [v|] eqn:Hv;
    [|rewrite run_eq, Hv in H; simpl in H;
      by destruct H as [H|[H|[]]]].
  destruct (LoadDefaultConfig_result w) as [cfg|e] eqn:Hl;
    [|rewrite run_eq, Hv, Hl in H; simpl in H;
      by destruct H as [H|[H|[]]]].
  destruct (GetCallerIdentity_reply w cfg) as [e|] eqn:Hg;
    [rewrite run_eq, Hv, Hl, Hg in H; simpl in H;
     by destruct H as [H|[H|[H|[]]]]|].
  destruct (Listen_result w ":8081") as [e|] eqn:Hb;
    [rewrite run_eq, Hv, Hl, Hg, Hb in H; simpl in H;
     by destruct H as [H|[H|[H|[H|[H|[H|[]]]]]]]|].
  destruct (run_serving w v cfg Hv Hl Hg Hb) as (evs & Hr & E).
  rewrite Hr in H. simpl in H.
  destruct H as [H|[H|[H|[H|[H|H]]]]]; try discriminate H.
  destruct (response_in_serving v _ _ E _ _ _ H) as (evs1 & E1 & H1).
  by exists v, evs1.
Qed.

Lemma livez_makes_no_call req : is_livez req -> call_of req = None.
Proof.
  intros [Hm Hp]. unfold call_of. repeat case_decide; congruence.
Qed.

Lemma routed_call_or_livez req :
  routed req -> call_of req <> None \/ is_livez req.
Proof.
  intros [Hm Hp]. unfold call_of, is_livez.
  rewrite decide_True by exact Hm.
  repeat case_decide; try (left; discriminate).
  right. split; [exact Hm|]. tauto.
Qed.

(** The three projections of the events of a sequence of requests. *)
Lemma serving_projections version reqs evs :
  serving_events version reqs evs ->
  requested evs = reqs /\
  answered evs = reqs /\
  calls_of evs = omap call_of reqs.
Proof.
  unfold requested, answered, calls_of.
  induction 1 as [|req reqs evs evs' E _ (IH1 & IH2 & IH3)];
    [by repeat split|].
  rewrite !omap_app, IH1, IH2, IH3.
  destruct E as [c d Hc|c Hc|c Hc|Hl|Hc Hl]; simpl;
    try rewrite (livez_makes_no_call _ Hl); try rewrite Hc; by repeat split.
Qed.

(* ===================================================================== *)
(** ** The serving phase as a whole *)
(* ===================================================================== *)

(** Find the response among the events of one request, written out. *)
Ltac pick_response Hin :=
  repeat match type of Hin with
         | _ \/ _ => destruct Hin as [Hin|Hin]
         | False => destruct Hin
         | _ = _ => simplify_eq
         end.

(** X7: in a run that serves, every incoming request is read and answered
    exactly once, in the order of arrival.  A handler that panics, a remote
    call that fails or a request that matches no route does not stop the
    requests behind it from being answered. *)
Theorem every_request_answered_in_order w :
  fst (run w) = Blocked ->
  requested (trace_of w) = incoming w /\
  answered (trace_of w) = incoming w.
Proof.
  intros H. destruct (blocked_serving w H) as (v & evs & _ & Hr & E).
  destruct (serving_projections _ _ _ E) as (H1 & H2 & _).
  unfold trace_of. rewrite Hr. cbn [snd].
  unfold requested, answered in *. rewrite !omap_app, H1, H2.
  by split.
Qed.

Lemma every_request_answered_in_order_witness :
  fst (run world_rough) = Blocked /\
  In (EvLog ("[Recovery] panic recovered: " +:+ nil_dereference))
     (trace_of world_rough) /\
  requested (trace_of world_rough) = incoming world_rough /\
  answered (trace_of world_rough) = incoming world_rough.
Proof.
  assert (H : fst (run world_rough) = Blocked) by reflexivity.
  split; [exact H|]. split.
  - vm_compute. do 7 right. left. reflexivity.
  - apply (every_request_answered_in_order world_rough H).
Defined.

(** X8: a request that matched one of the four registered routes is
    answered 200, 404 or 500, never anything else: whatever AWS returns, and
    also when the handler panics. *)
Theorem statuses_sent w req code b :
  In (EvResponse req code b) (trace_of w) ->
  routed req ->
  code = 200%Z \/ code = 404%Z \/ code = 500%Z.
Proof.
  intros H Hrt.
  destruct (response_of_run w req code b H) as (v & evs1 & _ & E & Hin).
  destruct E; simpl in Hin; pick_response Hin; auto.
  unfold error_status. case_decide; auto.
Qed.

Lemma statuses_sent_witness :
  In (EvResponse (get "/parameters" []) 500 []) (trace_of world_rough) /\
  routed (get "/parameters" []) /\
  (500 = 200 \/ 500 = 404 \/ 500 = 500)%Z.
Proof.
  assert (H : In (EvResponse (get "/parameters" []) 500 [])
                 (trace_of world_rough)).
  { vm_compute. do 11 right. left. reflexivity. }
  assert (Hrt : routed (get "/parameters" [])).
  { split; [reflexivity|]. right. left. reflexivity. }
  split; [exact H|]. split; [exact Hrt|].
  apply (statuses_sent world_rough (get "/parameters" []) 500 [] H Hrt).
Defined.

(** X9: when a request that matched one of the four registered routes is
    answered with a status other than 200, the body is empty: nothing of the
    remote error, and nothing of a panic, reaches the client. *)
Theorem error_bodies_are_empty w req code b :
  In (EvResponse req code b) (trace_of w) ->
  routed req ->
  code <> 200%Z ->
  b = [].
Proof.
  intros H Hrt Hc.
  destruct (response_of_run w req code b H) as (v & evs1 & _ & E & Hin).
  destruct (routed_call_or_livez req Hrt) as [Hcall|Hl].
  - destruct E as [c d Hc'|c Hc'|c Hc'|Hl|Hc' Hl]; simpl in Hin;
      pick_response Hin; auto; congruence.
  - destruct E as [c d Hc'|c Hc'|c Hc'|Hl'|Hc' Hl']; simpl in Hin;
      pick_response Hin; auto; contradiction.
Qed.

Lemma error_bodies_are_empty_witness :
  In (EvResponse (get "/parameters" []) 500 []) (trace_of world_rough) /\
  routed (get "/parameters" []) /\
  500%Z <> 200%Z /\
  ([] : list body_part) = [].
Proof.
  assert (H : In (EvResponse (get "/parameters" []) 500 [])
                 (trace_of world_rough)).
  { vm_compute. do 11 right. left. reflexivity. }
  assert (Hrt : routed (get "/parameters" [])).
  { split; [reflexivity|]. right. left. reflexivity. }
  assert (Hc : 500%Z <> 200%Z) by discriminate.
  split; [exact H|]. split; [exact Hrt|]. split; [exact Hc|].
  apply (error_bodies_are_empty world_rough (get "/parameters" []) 500 []
           H Hrt Hc).
Defined.

(** X10: in a run that serves, the SDK operations the program invokes are,
    in order: the one identity check, then for each incoming request the
    operation of its route: [ListBuckets] for GET /buckets,
    [DescribeParameters] for GET /parameters, [GetParameter] with the path
    parameter unchanged for GET /parameters/:name, and none for /livez and for
    requests that match no route.  The program invokes one operation per
    business request, also when it fails or the handler panics, and never
    invokes it a second time itself; what the SDK client re-sends inside one
    invocation is not counted. *)
Theorem outbound_calls w :
  fst (run w) = Blocked ->
  calls_of (trace_of w) =
    CallGetCallerIdentity :: omap call_of (incoming w).
Proof.
  intros H. destruct (blocked_serving w H) as (v & evs & _ & Hr & E).
  destruct (serving_projections _ _ _ E) as (_ & _ & H3).
  unfold trace_of. rewrite Hr. cbn [snd].
  unfold calls_of in *. by rewrite omap_app, H3.
Qed.

Lemma outbound_calls_witness :
  fst (run world_rough) = Blocked /\
  calls_of (trace_of world_rough) =
    [CallGetCallerIdentity; CallListBuckets; CallDescribeParameters;
     CallGetParameter {| Name := Some "foo" |}].
Proof.
  assert (H : fst (run world_rough) = Blocked) by reflexivity.
  split; [exact H|].
  apply (outbound_calls world_rough H).
Defined.

(** X12: the [data] of a successful list response, as JSON: an array with
    one string per item, the names in the order returned, and [null] when
    there is no item.  Both [/buckets] and [/parameters], every [Name]
    non-nil. *)
Theorem list_handlers_data cl version req w tr :
  (forall out names,
     ListBuckets_reply w (s3_options (s3 cl)) tr = inl out ->
     map s3types.Name (Buckets out) = map Some names ->
     answers (listBucketsHandler cl version (newContext req)) w tr
       {| status := 200; written := true; header := [jsonContentType];
          body := [JSONBody (envelope_json version (names_json names))] |}
       [EvCall CallListBuckets]) /\
  (forall out names,
     DescribeParameters_reply w (ssm_options (ssm cl)) tr = inl out ->
     map ssmtypes.Name (Parameters_ out) = map Some names ->
     answers (listParametersHandler cl version (newContext req)) w tr
       {| status := 200; written := true; header := [jsonContentType];
          body := [JSONBody (envelope_json version (names_json names))] |}
       [EvCall CallDescribeParameters]).
Proof.
  split; intros out names H Hn; eexists; split.
  - rewrite (listBucketsHandler_names _ _ _ _ _ _ _ H Hn). apply JSON_fresh.
  - unfold with_Writer, envelope, json_Marshal, envelope_json.
    cbn [Writer Version Data]. by rewrite appended_names.
  - rewrite (listParametersHandler_names _ _ _ _ _ _ _ H Hn). apply JSON_fresh.
  - unfold with_Writer, envelope, json_Marshal, envelope_json.
    cbn [Writer Version Data]. by rewrite appended_names.
Qed.

Lemma list_handlers_data_witness :
  answers (listBucketsHandler clients0 "v1" (newContext (get "/buckets" [])))
    world0 []
    {| status := 200; written := true; header := [jsonContentType];
       body := [JSONBody (JObject [("version", JString "v1");
                                   ("data", JArray [JString "a"; JString "b"])])] |}
    [EvCall CallListBuckets] /\
  answers (listParametersHandler clients0 "v1"
             (newContext (get "/parameters" [])))
    world_empty []
    {| status := 200; written := true; header := [jsonContentType];
       body := [JSONBody (JObject [("version", JString "v1");
                                   ("data", JNull)])] |}
    [EvCall CallDescribeParameters].
Proof.
  split.
  - apply (proj1 (list_handlers_data clients0 "v1" (get "/buckets" [])
                    world0 [])
             {| Buckets := [{| s3types.Name := Some "a" |};
                            {| s3types.Name := Some "b" |}] |}
             ["a"; "b"]);
      reflexivity.
  - apply (proj2 (list_handlers_data clients0 "v1" (get "/parameters" [])
                    world_empty [])
             {| Parameters_ := [] |} []);
      reflexivity.
Defined.

(** X13: the line [Service listening on :8081] is logged just before the
    port is bound, not after: every bind attempt, also one that fails, has
    that line right in front of it. *)
Theorem listening_logged_before_bind w (i : nat) addr :
  trace_of w !! i = Some (EvListen addr) ->
  exists j : nat,
    i = S j /\ trace_of w !! j = Some (EvLog "Service listening on :8081").
Proof.
  unfold trace_of.
  destruct (run_cases w)
    as [[Hv Hr]|[(v & e & Hv & Hl & Hr)|[(v & cfg & e & Hv & Hl & Hg & Hr)
       |(v & cfg & res & evs & Hv & Hl & Hg & Hr & F & _)]]];
    rewrite Hr; cbn [snd]; intros H.
  - index H.
  - index H.
  - index H.
  - apply (lookup_boot v) in H; [|exact F|intros []].
    unfold boot in H. index H. exists 3. split; reflexivity.
Qed.

Lemma listening_logged_before_bind_witness :
  fst (run world_portbusy) = Exit 1 /\
  trace_of world_portbusy !! 4 = Some (EvListen ":8081") /\
  exists j : nat,
    4 = S j /\
    trace_of world_portbusy !! j = Some (EvLog "Service listening on :8081").
Proof.
  assert (H : trace_of world_portbusy !! 4 = Some (EvListen ":8081"))
    by reflexivity.
  split; [reflexivity|]. split; [exact H|].
  apply (listening_logged_before_bind world_portbusy 4 ":8081" H).
Defined.
